(** * Invoice form actions: a shallow embedding of [app/lib/action.ts]

    The file embeds the four server actions of the dashboard
    ([createInvoice], [updateInvoice], [deleteInvoice], [authenticate])
    together with the parts of their collaborators that the actions depend
    on: ECMAScript numbers and dates, [FormData.get], the Zod schema
    [FormSchema.omit({id, date})], the [sql] tagged template, and the
    framework calls [revalidatePath], [redirect] and [signIn].

    Conventions.
    - A JavaScript number is an IEEE-754 binary64 value: [spec_float] at
      precision 53 and maximal exponent 1024, with the Standard Library's
      executable round-to-nearest-even operations.
    - A JavaScript string is a [string] whose characters are the code
      units of the text (code units below 256).
    - An [async] function is modelled by the trace of external calls it
      makes together with the way its promise settles. *)

From Stdlib Require Import ZArith QArith Qround Bool List String Ascii Lia.
From Stdlib Require Import SpecFloat.
From stdpp Require Import base option list strings gmap.

Local Open Scope string_scope.
Local Open Scope Z_scope.

(** ** ECMAScript numbers *)

Module Number.

Definition prec : Z := 53.
Definition emax : Z := 1024.

Definition t := spec_float.

Definition NaN : t := S754_nan.
Definition Infinity : t := S754_infinity false.
Definition zero : t := S754_zero false.

(** The number value of a mathematical integer (round to nearest even). *)
Definition of_Z (z : Z) : t := binary_normalize prec emax z 0 false.

Definition mul (x y : t) : t := SFmul prec emax x y.

(** [x <= y] and [x < y] of the language: false as soon as one side is NaN. *)
Definition leb (x y : t) : bool := SFleb x y.
Definition ltb (x y : t) : bool := SFltb x y.

(** [isNaN] *)
Definition isNaN (x : t) : bool :=
  match x with S754_nan => true | _ => false end.

(** The number value of the decimal [m * 10^e] with sign [neg]
    (RoundMVResult of StringToNumber). *)
Definition of_decimal (neg : bool) (m e : Z) : t :=
  match m with
  | Z0 => S754_zero neg
  | Zneg _ => NaN
  | Zpos p =>
      if 0 <=? e then
        binary_round prec emax neg (p * Z.to_pos (10 ^ e))%positive 0
      else
        let '(q, e', l) :=
          SFdiv_core_binary prec emax (Zpos p) 0 (10 ^ (- e)) 0 in
        binary_round_aux prec emax neg q e' l
  end.

(** The exact rational value of a finite number. *)
Definition to_Q (x : t) : option Q :=
  match x with
  | S754_zero _ => Some 0%Q
  | S754_finite s m e =>
      let v := if 0 <=? e then inject_Z (Zpos m * 2 ^ e)
               else (Zpos m # Z.to_pos (2 ^ (- e)))%Q in
      Some (if s then Qopp v else v)
  | _ => None
  end.

(** [x] is an integer [z] exactly. *)
Definition is_Z (x : t) (z : Z) : bool :=
  match to_Q x with
  | Some q => Qeq_bool q (inject_Z z)
  | None => false
  end.

End Number.

(** ** ECMAScript strings: trimming, splitting and [StringToNumber] *)

Module JsString.

(** StrWhiteSpaceChar: white space and line terminators. *)
Definition isStrWhiteSpaceChar (c : ascii) : bool :=
  match N_of_ascii c with
  | 9%N | 10%N | 11%N | 12%N | 13%N | 32%N | 160%N => true
  | _ => false
  end.

Fixpoint trimStart (s : string) : string :=
  match s with
  | String c s' => if isStrWhiteSpaceChar c then trimStart s' else s
  | EmptyString => EmptyString
  end.

Fixpoint trimEnd (s : string) : string :=
  match s with
  | EmptyString => EmptyString
  | String c s' =>
      match trimEnd s' with
      | EmptyString =>
          if isStrWhiteSpaceChar c then EmptyString else String c EmptyString
      | r => String c r
      end
  end.

Definition trim (s : string) : string := trimEnd (trimStart s).

(** [s.split(sep)] for a one-character separator: the array is never
    empty, so it is returned as its element 0 and the remaining ones. *)
Fixpoint split (sep : ascii) (s : string) : string * list string :=
  match s with
  | EmptyString => (EmptyString, [])
  | String c s' =>
      let '(h, t) := split sep s' in
      if Ascii.eqb c sep then (EmptyString, h :: t) else (String c h, t)
  end.

(** Whether the code unit [c] occurs in [s]. *)
Fixpoint occurs (c : ascii) (s : string) : bool :=
  match s with
  | EmptyString => false
  | String a s' => Ascii.eqb a c || occurs c s'
  end.

(** The value of a digit in bases up to 16. *)
Definition digit_value (c : ascii) : option Z :=
  let n := Z.of_N (N_of_ascii c) in
  if (48 <=? n) && (n <=? 57) then Some (n - 48)
  else if (97 <=? n) && (n <=? 102) then Some (n - 87)
  else if (65 <=? n) && (n <=? 70) then Some (n - 55)
  else None.

(** Reads the longest prefix of digits of [base], continuing the value
    [acc]; returns the value, the number of digits read and the rest. *)
Fixpoint digits (base : Z) (s : string) (acc n : Z) : Z * Z * string :=
  match s with
  | String c s' =>
      match digit_value c with
      | Some d =>
          if d <? base then digits base s' (acc * base + d) (n + 1)
          else (acc, n, s)
      | None => (acc, n, s)
      end
  | EmptyString => (acc, n, s)
  end.

Definition is_exponent_indicator (c : ascii) : bool :=
  Ascii.eqb c "e" || Ascii.eqb c "E".

(** Strings of decimal digits and the integer they denote. *)
Definition is_decimal_digit (c : ascii) : bool :=
  match digit_value c with
  | Some d => d <? 10
  | None => false
  end.

Fixpoint all_decimal_digits (s : string) : bool :=
  match s with
  | EmptyString => true
  | String c s' => is_decimal_digit c && all_decimal_digits s'
  end.

Fixpoint decimal_value (acc : Z) (s : string) : Z :=
  match s with
  | EmptyString => acc
  | String c s' =>
      decimal_value (acc * 10 + Z.of_N (N_of_ascii c) - 48) s'
  end.

(** What follows the mantissa: nothing, or an ExponentPart. *)
Definition ExponentPart (s : string) : option Z :=
  match s with
  | EmptyString => Some 0
  | String c s1 =>
      if is_exponent_indicator c then
        let '(neg, s2) :=
          match s1 with
          | String "-" r => (true, r)
          | String "+" r => (false, r)
          | _ => (false, s1)
          end in
        let '(v, n, r) := digits 10 s2 0 0 in
        match r with
        | EmptyString =>
            if 0 <? n then Some (if neg then - v else v) else None
        | _ => None
        end
      else None
  end.

(** StrUnsignedDecimalLiteral with the sign read before it. *)
Definition StrUnsignedDecimalLiteral (neg : bool) (s : string) : Number.t :=
  if String.eqb s "Infinity" then S754_infinity neg
  else
    let '(m1, n1, r1) := digits 10 s 0 0 in
    let '(m2, n2, r2) :=
      match r1 with
      | String "." r => digits 10 r m1 0
      | _ => (m1, 0, r1)
      end in
    if n1 + n2 =? 0 then Number.NaN
    else
      match ExponentPart r2 with
      | Some e => Number.of_decimal neg m2 (e - n2)
      | None => Number.NaN
      end.

(** NonDecimalIntegerLiteral after its prefix: at least one digit of
    [base] and nothing else. *)
Definition NonDecimalIntegerLiteral (base : Z) (s : string) : Number.t :=
  match digits base s 0 0 with
  | (v, n, EmptyString) => if 0 <? n then Number.of_Z v else Number.NaN
  | _ => Number.NaN
  end.

Definition StringToNumber (str : string) : Number.t :=
  match trim str with
  | EmptyString => Number.zero
  | String "0" (String "x" r) | String "0" (String "X" r) =>
      NonDecimalIntegerLiteral 16 r
  | String "0" (String "o" r) | String "0" (String "O" r) =>
      NonDecimalIntegerLiteral 8 r
  | String "0" (String "b" r) | String "0" (String "B" r) =>
      NonDecimalIntegerLiteral 2 r
  | String "+" r => StrUnsignedDecimalLiteral false r
  | String "-" r => StrUnsignedDecimalLiteral true r
  | s => StrUnsignedDecimalLiteral false s
  end.

End JsString.

(** ** ECMAScript dates: time values and [toISOString] *)

Module Date.

(** A time value: milliseconds since 1970-01-01T00:00:00Z. *)
Definition msPerDay : Z := 86400000.

Definition Day (t : Z) : Z := t / msPerDay.
Definition TimeWithinDay (t : Z) : Z := t mod msPerDay.

Definition DayFromYear (y : Z) : Z :=
  365 * (y - 1970) + (y - 1969) / 4 - (y - 1901) / 100 + (y - 1601) / 400.

(** The largest year whose first day is not after day [d]: the mean
    year length gives an estimate that is off by at most one. *)
Definition YearFromDay (d : Z) : Z :=
  let y := 1970 + (400 * d) / 146097 in
  if d <? DayFromYear y then y - 1
  else if DayFromYear (y + 1) <=? d then y + 1
  else y.

Definition YearFromTime (t : Z) : Z := YearFromDay (Day t).

Definition DaysInYear (y : Z) : Z := DayFromYear (y + 1) - DayFromYear y.

Definition InLeapYear (t : Z) : Z :=
  if DaysInYear (YearFromTime t) =? 366 then 1 else 0.

Definition DayWithinYear (t : Z) : Z := Day t - DayFromYear (YearFromTime t).

(** Month number (0 is January) and day of the month (from 1). *)
Definition MonthAndDate (t : Z) : Z * Z :=
  let d := DayWithinYear t in
  let l := InLeapYear t in
  if d <? 31 then (0, d + 1)
  else if d <? 59 + l then (1, d - 30)
  else if d <? 90 + l then (2, d - 58 - l)
  else if d <? 120 + l then (3, d - 89 - l)
  else if d <? 151 + l then (4, d - 119 - l)
  else if d <? 181 + l then (5, d - 150 - l)
  else if d <? 212 + l then (6, d - 180 - l)
  else if d <? 243 + l then (7, d - 211 - l)
  else if d <? 273 + l then (8, d - 242 - l)
  else if d <? 304 + l then (9, d - 272 - l)
  else if d <? 334 + l then (10, d - 303 - l)
  else (11, d - 333 - l).

Definition MonthFromTime (t : Z) : Z := fst (MonthAndDate t).
Definition DateFromTime (t : Z) : Z := snd (MonthAndDate t).

Definition HourFromTime (t : Z) : Z := (t / 3600000) mod 24.
Definition MinFromTime (t : Z) : Z := (t / 60000) mod 60.
Definition SecFromTime (t : Z) : Z := (t / 1000) mod 60.
Definition msFromTime (t : Z) : Z := t mod 1000.

Definition digit_char (d : Z) : ascii := ascii_of_N (48 + Z.to_N d).

(** The last [width] decimal digits of [n], zero padded. *)
Fixpoint pad (width : nat) (n : Z) : string :=
  match width with
  | O => EmptyString
  | S w => pad w (n / 10) +:+ String (digit_char (n mod 10)) EmptyString
  end.

(** Four digits for the years 0 to 9999, a sign and six digits otherwise. *)
Definition YearString (y : Z) : string :=
  if (0 <=? y) && (y <=? 9999) then pad 4 y
  else (if y <? 0 then "-" else "+") +:+ pad 6 (Z.abs y).

(** The calendar date [YYYY-MM-DD] of a time value, in UTC. *)
Definition DateString (t : Z) : string :=
  YearString (YearFromTime t) +:+ "-" +:+ pad 2 (MonthFromTime t + 1)
    +:+ "-" +:+ pad 2 (DateFromTime t).

Definition TimeString (t : Z) : string :=
  pad 2 (HourFromTime t) +:+ ":" +:+ pad 2 (MinFromTime t) +:+ ":"
    +:+ pad 2 (SecFromTime t) +:+ "." +:+ pad 3 (msFromTime t).

Definition toISOString (t : Z) : string :=
  DateString t +:+ "T" +:+ TimeString t +:+ "Z".

(** The calendar read backwards: days of the year before month [m]
    (0 is January), the length of month [m], and the day number of the
    date [d] of month [m] of year [y]. [l] is 1 in a leap year, else 0. *)
Definition DaysBeforeMonth (l m : Z) : Z :=
  match m with
  | 0 => 0
  | 1 => 31
  | 2 => 59 + l
  | 3 => 90 + l
  | 4 => 120 + l
  | 5 => 151 + l
  | 6 => 181 + l
  | 7 => 212 + l
  | 8 => 243 + l
  | 9 => 273 + l
  | 10 => 304 + l
  | _ => 334 + l
  end.

Definition DaysInMonth (l m : Z) : Z :=
  match m with
  | 1 => 28 + l
  | 3 | 5 | 8 | 10 => 30
  | _ => 31
  end.

Definition LeapDays (y : Z) : Z := DaysInYear y - 365.

Definition DayOfDate (y m d : Z) : Z :=
  DayFromYear y + DaysBeforeMonth (LeapDays y) m + d - 1.

End Date.

(** ** The values that reach the actions *)

Inductive JsValue :=
| VUndefined
| VNull
| VString (s : string)
| VNumber (n : Number.t)
| VFile (name : string).

(** An object literal: its own properties in insertion order. *)
Definition JsObject := list (string * JsValue).

(** [o[key]], [undefined] when the property is absent. *)
Fixpoint get_property (o : JsObject) (key : string) : JsValue :=
  match o with
  | [] => VUndefined
  | (k, v) :: o' => if String.eqb k key then v else get_property o' key
  end.

(** [Number(v)]: ToNumber. A [File] has no numeric primitive value. *)
Definition ToNumber (v : JsValue) : Number.t :=
  match v with
  | VUndefined => Number.NaN
  | VNull => Number.zero
  | VString s => JsString.StringToNumber s
  | VNumber n => n
  | VFile _ => Number.NaN
  end.

(** [x * y] *)
Definition js_mul (x y : JsValue) : JsValue :=
  VNumber (Number.mul (ToNumber x) (ToNumber y)).

(** ** [FormData] *)

Module FormData.

Inductive FormDataEntryValue :=
| EntryString (s : string)
| EntryFile (name : string).

Definition t := list (string * FormDataEntryValue).

Definition value_of (e : FormDataEntryValue) : JsValue :=
  match e with
  | EntryString s => VString s
  | EntryFile f => VFile f
  end.

(** [formData.get(name)]: the first entry of that name, else [null]. *)
Fixpoint get (name : string) (fd : t) : JsValue :=
  match fd with
  | [] => VNull
  | (k, e) :: fd' => if String.eqb k name then value_of e else get name fd'
  end.

(** [formData.has(name)] *)
Fixpoint has (name : string) (fd : t) : bool :=
  match fd with
  | [] => false
  | (k, _) :: fd' => String.eqb k name || has name fd'
  end.

End FormData.

(** ** Zod: the schema combinators used by [FormSchema] *)

Module Zod.

Inductive ZodIssueCode := invalid_type | invalid_enum_value | too_small.

Record ZodIssue := {
  code : ZodIssueCode;
  path : list string;
  message : string
}.

Inductive ParseReturn (A : Type) :=
| OK (value : A)
| INVALID (issues : list ZodIssue).
Arguments OK {A} value.
Arguments INVALID {A} issues.

Definition Schema := list string -> JsValue -> ParseReturn JsValue.

(** [getParsedType], as printed in messages. *)
Definition parsedType (v : JsValue) : string :=
  match v with
  | VUndefined => "undefined"
  | VNull => "null"
  | VString _ => "string"
  | VNumber n => if Number.isNaN n then "nan" else "number"
  | VFile _ => "object"
  end.

(** The message of an [invalid_type] issue: the default error map says
    [Required] for [undefined]; an [invalid_type_error] given at schema
    creation replaces the default for any other wrong type. *)
Definition invalid_type_message
    (invalid_type_error : option string) (expected : string) (data : JsValue)
    : string :=
  match data with
  | VUndefined => "Required"
  | _ =>
      match invalid_type_error with
      | Some m => m
      | None => "Expected " +:+ expected +:+ ", received " +:+ parsedType data
      end
  end.

Definition invalid_type_issue
    (invalid_type_error : option string) (expected : string)
    (p : list string) (data : JsValue) : ZodIssue :=
  {| code := invalid_type; path := p;
     message := invalid_type_message invalid_type_error expected data |}.

(** [z.string(params)] *)
Definition z_string (invalid_type_error : option string) : Schema :=
  fun p data =>
    match data with
    | VString s => OK (VString s)
    | _ => INVALID [invalid_type_issue invalid_type_error "string" p data]
    end.

(** A [min] check of a number schema: [.gt(value, {message})] is the
    one that is not inclusive. *)
Record NumberCheck := {
  value : Number.t;
  inclusive : bool;
  check_message : string
}.

Definition gt (v : Number.t) (m : string) : NumberCheck :=
  {| value := v; inclusive := false; check_message := m |}.

Definition tooSmall (c : NumberCheck) (data : Number.t) : bool :=
  if inclusive c then Number.ltb data (value c)
  else Number.leb data (value c).

Definition check_issues (checks : list NumberCheck) (p : list string)
    (data : Number.t) : list ZodIssue :=
  omap (fun c =>
          if tooSmall c data
          then Some {| code := too_small; path := p;
                       message := check_message c |}
          else None) checks.

(** [z.coerce.number()] followed by checks: the input goes through
    [Number(...)]; NaN is not of type number. *)
Definition z_coerce_number (checks : list NumberCheck) : Schema :=
  fun p data =>
    let n := ToNumber data in
    if Number.isNaN n
    then INVALID [invalid_type_issue None "number" p (VNumber n)]
    else
      match check_issues checks p n with
      | [] => OK (VNumber n)
      | issues => INVALID issues
      end.

(** [util.joinValues] *)
Definition joinValues (values : list string) : string :=
  String.concat " | " (map (fun v => "'" +:+ v +:+ "'") values).

(** [z.enum(values, params)] *)
Definition z_enum (values : list string) (invalid_type_error : option string)
    : Schema :=
  fun p data =>
    match data with
    | VString s =>
        if existsb (String.eqb s) values then OK (VString s)
        else INVALID [{| code := invalid_enum_value; path := p;
                         message := "Invalid enum value. Expected "
                                      +:+ joinValues values
                                      +:+ ", received '" +:+ s +:+ "'" |}]
    | _ => INVALID [invalid_type_issue invalid_type_error
                      (joinValues values) p data]
    end.

(** The shape of [z.object]. *)
Definition Shape := list (string * Schema).

(** [schema.omit({k: true, ...})] *)
Definition omit (keys : list string) (shape : Shape) : Shape :=
  List.filter (fun kv => negb (existsb (String.eqb (fst kv)) keys)) shape.

(** Object parsing: every key of the shape is validated, in order, on
    the property of that name; issues of all keys are collected; keys
    outside the shape are stripped. *)
Fixpoint z_object (shape : Shape) (p : list string) (input : JsObject)
    : ParseReturn JsObject :=
  match shape with
  | [] => OK []
  | (key, validator) :: rest =>
      match validator (p ++ [key])%list (get_property input key),
            z_object rest p input with
      | OK v, OK o => OK ((key, v) :: o)
      | OK _, INVALID issues => INVALID issues
      | INVALID issues, OK _ => INVALID issues
      | INVALID issues, INVALID issues' => INVALID (issues ++ issues')%list
      end
  end.

Inductive SafeParseReturn :=
| Success (data : JsObject)
| Failure (error : list ZodIssue).

Definition safeParse (shape : Shape) (input : JsObject) : SafeParseReturn :=
  match z_object shape [] input with
  | OK o => Success o
  | INVALID issues => Failure issues
  end.

(** [error.flatten().fieldErrors]: messages grouped by the first path
    element, in issue order. One step pushes the message of an issue. *)
Definition flatten_step (fieldErrors : gmap string (list string))
    (sub : ZodIssue) : gmap string (list string) :=
  match path sub with
  | k :: _ =>
      <[k := (default [] (fieldErrors !! k) ++ [message sub])%list]> fieldErrors
  | [] => fieldErrors
  end.

Definition flatten_fieldErrors (issues : list ZodIssue)
    : gmap string (list string) :=
  fold_left flatten_step issues ∅.

(** The messages of the issues filed under a field. *)
Definition at_field (k : string) (i : ZodIssue) : bool :=
  match path i with
  | k' :: _ => String.eqb k' k
  | [] => false
  end.

Definition messages_at (k : string) (issues : list ZodIssue) : list string :=
  map message (List.filter (at_field k) issues).

Definition issues_of {A} (r : ParseReturn A) : list ZodIssue :=
  match r with
  | OK _ => []
  | INVALID issues => issues
  end.

(** An issue filed directly under a key of the object. *)
Definition issue (c : ZodIssueCode) (key m : string) : ZodIssue :=
  {| code := c; path := [key]; message := m |}.

(** A field validator accepts, or files exactly one issue under its key. *)
Inductive verdict (key : string) : ParseReturn JsValue -> Prop :=
| accepted v : verdict key (OK v)
| rejected c m : verdict key (INVALID [issue c key m]).

End Zod.

(** ** Effects: external calls, completions and promises *)

(** What can be thrown. [AuthError] stands for every instance of
    next-auth's class (subclasses included) with its [type] property;
    [RedirectError] is the signal thrown by [redirect]. *)
Inductive JsError :=
| AuthError (type : string)
| RedirectError (url : string)
| OtherError (description : string).

(** The statements sent through the [sql] tagged template, with their
    bound parameters in the order of the template. *)
Inductive Query :=
| INSERT_INTO_invoices (customer_id amount status date : JsValue)
| UPDATE_invoices (customer_id amount status id : JsValue)
| DELETE_FROM_invoices (id : JsValue).

Inductive Event :=
| CallSql (q : Query)
| CallRevalidatePath (path : string)
| CallRedirect (url : string)
| CallSignIn (provider : string) (formData : FormData.t).

(** The world outside the actions: whether a statement or a sign-in
    raises (and what), and the clock read by [new Date()]. *)
Record World := {
  sql_raises : Query -> option JsError;
  signIn_raises : string -> FormData.t -> option JsError;
  now : Z
}.

(** How a statement list completes: normally, by [return], or by a throw. *)
Inductive Completion (R A : Type) :=
| Normal (a : A)
| Return (r : R)
| Throw (e : JsError).
Arguments Normal {R A} a.
Arguments Return {R A} r.
Arguments Throw {R A} e.

(** A statement: the calls it made, then its completion. *)
Definition Stmt (R A : Type) : Type := list Event * Completion R A.

#[global] Instance Stmt_ret {R} : MRet (Stmt R) := fun A a => ([], Normal a).

#[global] Instance Stmt_bind {R} : MBind (Stmt R) := fun A B k m =>
  match m with
  | (tr, Normal a) => let '(tr', c) := k a in ((tr ++ tr')%list, c)
  | (tr, Return r) => (tr, Return r)
  | (tr, Throw e) => (tr, Throw e)
  end.

Definition call {R} (ev : Event) (raises : option JsError) : Stmt R unit :=
  ([ev], match raises with None => Normal tt | Some e => Throw e end).

Definition return_ {R A} (r : R) : Stmt R A := ([], Return r).
Definition throw {R A} (e : JsError) : Stmt R A := ([], Throw e).

(** [try { m } catch (error) { handler error }] *)
Definition try_catch {R A} (m : Stmt R A) (handler : JsError -> Stmt R A)
    : Stmt R A :=
  match m with
  | (tr, Throw e) => let '(tr', c) := handler e in ((tr ++ tr')%list, c)
  | _ => m
  end.

(** How the promise of an [async] function settles; [Fulfilled None] is
    a function that ends without [return]. *)
Inductive Settled (R : Type) :=
| Fulfilled (r : option R)
| Rejected (e : JsError).
Arguments Fulfilled {R} r.
Arguments Rejected {R} e.

Definition async {R} (body : Stmt R unit) : list Event * Settled R :=
  match body with
  | (tr, Normal _) => (tr, Fulfilled None)
  | (tr, Return r) => (tr, Fulfilled (Some r))
  | (tr, Throw e) => (tr, Rejected e)
  end.

Section Collaborators.
Context {R : Type} (w : World).

(** [await sql`...`] *)
Definition sql (q : Query) : Stmt R unit := call (CallSql q) (sql_raises w q).

(** [revalidatePath(path)] marks the route stale and returns. *)
Definition revalidatePath (path : string) : Stmt R unit :=
  call (CallRevalidatePath path) None.

(** [redirect(url)] never returns: it throws the redirect signal. *)
Definition redirect (url : string) : Stmt R unit :=
  call (CallRedirect url) (Some (RedirectError url)).

(** [await signIn(provider, formData)] *)
Definition signIn (provider : string) (formData : FormData.t) : Stmt R unit :=
  call (CallSignIn provider formData) (signIn_raises w provider formData).
End Collaborators.

(** ** [app/lib/action.ts] *)

Definition FormSchema : Zod.Shape :=
  [ ("id", Zod.z_string None);
    ("customerId", Zod.z_string (Some "Please select a customer."));
    ("amount",
      Zod.z_coerce_number
        [Zod.gt (Number.of_Z 0) "Please enter an amount greater than $0."]);
    ("status",
      Zod.z_enum ["pending"; "paid"] (Some "Please select an invoice status."));
    ("date", Zod.z_string None) ].

Definition CreateInvoice : Zod.Shape := Zod.omit ["id"; "date"] FormSchema.

Record State := {
  errors : option (gmap string (list string));
  message : option string
}.

Definition createInvoice (w : World) (prevState : State)
    (formData : FormData.t) : list Event * Settled State :=
  async (
    let validatedFields :=
      Zod.safeParse CreateInvoice
        [ ("customerId", FormData.get "customerId" formData);
          ("amount", FormData.get "amount" formData);
          ("status", FormData.get "status" formData) ] in
    match validatedFields with
    | Zod.Failure error =>
        return_ {| errors := Some (Zod.flatten_fieldErrors error);
                   message := Some "Missing Fields. Failed to Create Invoice." |}
    | Zod.Success data =>
        let customerId := get_property data "customerId" in
        let amount := get_property data "amount" in
        let status := get_property data "status" in
        let amountInCents := js_mul (VNumber (Number.of_Z 100)) amount in
        let date :=
          VString (fst (JsString.split "T" (Date.toISOString (now w)))) in
        try_catch
          (sql w (INSERT_INTO_invoices customerId amountInCents status date))
          (fun error =>
             return_ {| errors := None;
                        message :=
                          Some "Database Error: Failed to Create Invoice." |}) ;;
        revalidatePath "/dashboard/invoices" ;;
        redirect "/dashboard/invoices"
    end).

Definition UpdateInvoice : Zod.Shape := Zod.omit ["id"; "date"] FormSchema.

Definition updateInvoice (w : World) (id : string) (prevState : State)
    (formData : FormData.t) : list Event * Settled State :=
  async (
    let validatedFields :=
      Zod.safeParse UpdateInvoice
        [ ("customerId", FormData.get "customerId" formData);
          ("amount", FormData.get "amount" formData);
          ("status", FormData.get "status" formData) ] in
    match validatedFields with
    | Zod.Failure error =>
        return_ {| errors := Some (Zod.flatten_fieldErrors error);
                   message := Some "Missing Fields. Failed to Update Invoice." |}
    | Zod.Success data =>
        let amount := get_property data "amount" in
        let customerId := get_property data "customerId" in
        let status := get_property data "status" in
        let amountInCents := js_mul amount (VNumber (Number.of_Z 100)) in
        try_catch
          (sql w (UPDATE_invoices customerId amountInCents status (VString id)))
          (fun error =>
             return_ {| errors := None;
                        message :=
                          Some "Database Error: Failed to Update Invoice." |}) ;;
        revalidatePath "/dashboard/invoices" ;;
        redirect "/dashboard/invoices"
    end).

Definition deleteInvoice (w : World) (id : string)
    : list Event * Settled State :=
  async (
    try_catch
      (sql w (DELETE_FROM_invoices (VString id)))
      (fun error =>
         return_ {| errors := None;
                    message :=
                      Some "Database Error: Failed to Delete Invoice." |}) ;;
    revalidatePath "/dashboard/invoices").

Inductive PrevState :=
| PrevString (s : string)
| PrevState_ (s : State)
| PrevUndefined.

Definition authenticate (w : World) (prevState : PrevState)
    (formData : FormData.t) : list Event * Settled State :=
  async (
    try_catch
      (signIn w "credentials" formData)
      (fun error =>
         match error with
         | AuthError type =>
             if String.eqb type "CredentialsSignin"
             then return_ {| errors := None;
                             message := Some "Invalid credentials." |}
             else return_ {| errors := None;
                             message := Some "Something went wrong." |}
         | _ => throw error
         end)).

(** ** Observations on a run *)

(** The object literal that both [createInvoice] and [updateInvoice] hand
    to [safeParse]. *)
Definition submitted (formData : FormData.t) : JsObject :=
  [ ("customerId", FormData.get "customerId" formData);
    ("amount", FormData.get "amount" formData);
    ("status", FormData.get "status" formData) ].

Definition validate (formData : FormData.t) : Zod.SafeParseReturn :=
  Zod.safeParse CreateInvoice (submitted formData).

(** What the validator of [key] in a shape answers on the property of
    that name. *)
Fixpoint field_result (shape : Zod.Shape) (input : JsObject) (key : string)
    : option (Zod.ParseReturn JsValue) :=
  match shape with
  | [] => None
  | (k, validator) :: rest =>
      if String.eqb k key then Some (validator [key] (get_property input key))
      else field_result rest input key
  end.

(** A field is offending when its validator rejects the submitted value. *)
Definition offending (formData : FormData.t) (key : string) : Prop :=
  exists issues,
    field_result CreateInvoice (submitted formData) key
    = Some (Zod.INVALID issues).

Definition trace {R} (run : list Event * Settled R) : list Event := fst run.
Definition settled {R} (run : list Event * Settled R) : Settled R := snd run.

Definition returned_state (run : list Event * Settled State) : option State :=
  match settled run with
  | Fulfilled r => r
  | Rejected _ => None
  end.

(** The messages reported for a field in the returned state, if any. *)
Definition field_errors (run : list Event * Settled State) (key : string)
    : option (list string) :=
  match returned_state run with
  | Some st =>
      match errors st with
      | Some fieldErrors => fieldErrors !! key
      | None => None
      end
  | None => None
  end.

Definition summary (run : list Event * Settled State) : option string :=
  match returned_state run with
  | Some st => message st
  | None => None
  end.

(** The amount bound in the statement a run sent to the store, if any. *)
Definition written_amount (run : list Event * Settled State) : option JsValue :=
  match trace run with
  | CallSql (INSERT_INTO_invoices _ a _ _) :: _ => Some a
  | CallSql (UPDATE_invoices _ a _ _) :: _ => Some a
  | _ => None
  end.

Definition is_redirect (ev : Event) : bool :=
  match ev with CallRedirect _ => true | _ => false end.

Definition is_revalidate (ev : Event) : bool :=
  match ev with CallRevalidatePath _ => true | _ => false end.

(** A run invalidates the cache exactly when it sent a statement that the
    store did not refuse, and then it is the listing route. *)
Definition invalidates_after_write (w : World)
    (run : list Event * Settled State) : Prop :=
  forall path,
    In (CallRevalidatePath path) (trace run) <->
    path = "/dashboard/invoices"
    /\ exists q, head (trace run) = Some (CallSql q) /\ sql_raises w q = None.

(** The three ways a run of [createInvoice] or [updateInvoice] can end:
    the validation state, the database-error state after a refused
    statement, or the redirect after an accepted one. *)
Definition ends_in_one_of_three_ways (w : World)
    (run : list Event * Settled State) (invalid failed : string) : Prop :=
  (exists fieldErrors,
     run = ([], Fulfilled (Some {| errors := Some fieldErrors;
                                   message := Some invalid |})))
  \/ (exists q e,
        sql_raises w q = Some e
        /\ run = ([CallSql q],
                  Fulfilled (Some {| errors := None; message := Some failed |})))
  \/ (exists q,
        sql_raises w q = None
        /\ run = ([CallSql q; CallRevalidatePath "/dashboard/invoices";
                   CallRedirect "/dashboard/invoices"],
                  Rejected (RedirectError "/dashboard/invoices"))).

(** The specification's reading of the stored amount: [round(a * 100)],
    the exact product rounded to the nearest integer, halves upwards. *)
Definition spec_round_cents (a : Number.t) : option Z :=
  match Number.to_Q a with
  | Some q => Some (Qfloor (q * 100 + (1 # 2))%Q)
  | None => None
  end.

(** ** The two phases of [createInvoice] and [updateInvoice]

    The definitions below name the pieces of the actions so that the
    lemmas can speak about them; [createInvoice_run] and
    [updateInvoice_run] prove that the actions are made of them. *)

(** The three field validators of [CreateInvoice] on the submitted values. *)
Definition check_customerId (fd : FormData.t) : Zod.ParseReturn JsValue :=
  Zod.z_string (Some "Please select a customer.") ["customerId"]
    (FormData.get "customerId" fd).

Definition check_amount (fd : FormData.t) : Zod.ParseReturn JsValue :=
  Zod.z_coerce_number
    [Zod.gt (Number.of_Z 0) "Please enter an amount greater than $0."]
    ["amount"] (FormData.get "amount" fd).

Definition check_status (fd : FormData.t) : Zod.ParseReturn JsValue :=
  Zod.z_enum ["pending"; "paid"] (Some "Please select an invoice status.")
    ["status"] (FormData.get "status" fd).

(** The statements of the two writes, from the validated data. *)
Definition insert_statement (w : World) (data : JsObject) : Query :=
  INSERT_INTO_invoices
    (get_property data "customerId")
    (js_mul (VNumber (Number.of_Z 100)) (get_property data "amount"))
    (get_property data "status")
    (VString (fst (JsString.split "T" (Date.toISOString (now w))))).

Definition update_statement (id : string) (data : JsObject) : Query :=
  UPDATE_invoices
    (get_property data "customerId")
    (js_mul (get_property data "amount") (VNumber (Number.of_Z 100)))
    (get_property data "status")
    (VString id).

(** A run that stops at validation. *)
Definition validation_error (error : list Zod.ZodIssue) (m : string)
    : list Event * Settled State :=
  ([], Fulfilled (Some {| errors := Some (Zod.flatten_fieldErrors error);
                          message := Some m |})).

(** A run that reaches the store: the write, then either the error state
    or invalidation followed by the redirect. *)
Definition write_then_leave (w : World) (q : Query) (failure : string)
    : list Event * Settled State :=
  match sql_raises w q with
  | None =>
      ([CallSql q; CallRevalidatePath "/dashboard/invoices";
        CallRedirect "/dashboard/invoices"],
       Rejected (RedirectError "/dashboard/invoices"))
  | Some _ =>
      ([CallSql q],
       Fulfilled (Some {| errors := None; message := Some failure |}))
  end.


(** ** Sample worlds and submissions *)

Module Sample.
Import FormData.

Definition at_2023_11_14 : Z := 1700000000000.

Definition store_accepts : World :=
  {| sql_raises := fun _ => None;
     signIn_raises := fun _ _ => Some (RedirectError "/dashboard");
     now := at_2023_11_14 |}.

Definition store_rejects : World :=
  {| sql_raises := fun _ => Some (OtherError "foreign key violation");
     signIn_raises := fun _ _ => Some (AuthError "CredentialsSignin");
     now := at_2023_11_14 |}.

Definition provider_misconfigured : World :=
  {| sql_raises := fun _ => None;
     signIn_raises := fun _ _ => Some (AuthError "CallbackRouteError");
     now := at_2023_11_14 |}.

Definition provider_unreachable : World :=
  {| sql_raises := fun _ => None;
     signIn_raises := fun _ _ => Some (OtherError "fetch failed");
     now := at_2023_11_14 |}.

Definition blank : State := {| errors := None; message := None |}.

Definition invoice (amount status : string) : FormData.t :=
  [ ("customerId", EntryString "cust-1");
    ("amount", EntryString amount);
    ("status", EntryString status) ].

Definition without_amount : FormData.t :=
  [ ("customerId", EntryString "cust-1"); ("status", EntryString "paid") ].

Definition without_status : FormData.t :=
  [ ("customerId", EntryString "cust-1"); ("amount", EntryString "12") ].

Definition credentials : FormData.t :=
  [ ("email", EntryString "user@example.com");
    ("password", EntryString "123456") ].
End Sample.

(** * Properties of the collaborators *)

(** ** Numbers against zero *)

Lemma of_Z_0 : Number.of_Z 0 = Number.zero.
Proof. reflexivity. Qed.

Lemma leb_zero_not_NaN x :
  Number.leb x Number.zero = true -> Number.isNaN x = false.
Proof. destruct x; simpl; intros; try reflexivity; discriminate. Qed.

Lemma ltb_zero_not_leb x :
  Number.ltb Number.zero x = true ->
  Number.isNaN x = false /\ Number.leb x Number.zero = false.
Proof.
  destruct x as [s|s| |s m e]; try destruct s; cbv; intros; try discriminate; auto.
Qed.

Lemma not_NaN_sign x :
  Number.isNaN x = false ->
  Number.leb x Number.zero = true \/ Number.ltb Number.zero x = true.
Proof.
  destruct x as [s|s| |s m e]; try destruct s; cbv; intros; try discriminate; auto.
Qed.

(** ** Strings *)

Lemma append_cons a s1 s2 : String a s1 +:+ s2 = String a (s1 +:+ s2).
Proof. reflexivity. Qed.

Lemma append_nil s : "" +:+ s = s.
Proof. reflexivity. Qed.

Lemma length_append s1 s2 :
  String.length (s1 +:+ s2) = (String.length s1 + String.length s2)%nat.
Proof.
  induction s1 as [|a s1 IH]; [reflexivity|].
  rewrite append_cons. cbn [String.length]. now rewrite IH.
Qed.

Lemma occurs_append c s1 s2 :
  JsString.occurs c (s1 +:+ s2) = JsString.occurs c s1 || JsString.occurs c s2.
Proof.
  induction s1 as [|a s1 IH]; [reflexivity|].
  rewrite append_cons. cbn [JsString.occurs]. rewrite IH. apply orb_assoc.
Qed.

Lemma split_at_first sep s1 s2 :
  JsString.occurs sep s1 = false ->
  fst (JsString.split sep (s1 +:+ String sep s2)) = s1.
Proof.
  induction s1 as [|a s1 IH];
    rewrite ?append_cons, ?append_nil; cbn [JsString.split JsString.occurs].
  - intros _. destruct (JsString.split sep s2). now rewrite Ascii.eqb_refl.
  - intros H. apply orb_false_iff in H as [Ha Hs]. specialize (IH Hs).
    destruct (JsString.split sep (s1 +:+ String sep s2)) as [h t].
    rewrite Ha. cbn [fst] in *. now rewrite IH.
Qed.

(** The coercion on a few strings. *)
Example StringToNumber_samples :
  JsString.StringToNumber " 12 " = Number.of_Z 12
  /\ JsString.StringToNumber "" = Number.zero
  /\ JsString.StringToNumber "-0" = S754_zero true
  /\ JsString.StringToNumber "1e3" = Number.of_Z 1000
  /\ JsString.StringToNumber "0x1F" = Number.of_Z 31
  /\ JsString.StringToNumber ".5" = S754_finite false 4503599627370496 (-53)
  /\ JsString.StringToNumber "-Infinity" = S754_infinity true
  /\ JsString.StringToNumber "12px" = Number.NaN
  /\ JsString.StringToNumber "1,5" = Number.NaN
  /\ JsString.StringToNumber "9007199254740993" = Number.of_Z 9007199254740992.
Proof. vm_compute. repeat split. Qed.

(** ** Dates

    [YearFromDay] meets the definition of the language: it is the largest
    year whose first day is not after the given day. *)

Lemma YearFromDay_spec d :
  Date.DayFromYear (Date.YearFromDay d) <= d < Date.DayFromYear (Date.YearFromDay d + 1).
Proof.
  unfold Date.YearFromDay. cbv zeta.
  destruct (Z.ltb_spec d (Date.DayFromYear (1970 + 400 * d / 146097))) as [H1|H1].
  - unfold Date.DayFromYear in *. Z.div_mod_to_equations. lia.
  - destruct (Z.leb_spec (Date.DayFromYear (1970 + 400 * d / 146097 + 1)) d) as [H2|H2].
    + unfold Date.DayFromYear in *. Z.div_mod_to_equations. lia.
    + lia.
Qed.

Lemma DayFromYear_increasing y1 y2 :
  y1 < y2 -> Date.DayFromYear y1 < Date.DayFromYear y2.
Proof. intros H. unfold Date.DayFromYear. Z.div_mod_to_equations. lia. Qed.

Lemma YearFromDay_largest d y :
  Date.DayFromYear y <= d -> y <= Date.YearFromDay d.
Proof.
  intros H. destruct (Z.le_gt_cases y (Date.YearFromDay d)) as [|Hgt]; [assumption|].
  pose proof (YearFromDay_spec d) as [_ Hd].
  assert (Date.YearFromDay d + 1 <= y) as Hle by lia.
  destruct (Z.eq_dec (Date.YearFromDay d + 1) y) as [<-|Hne]; [lia|].
  pose proof (DayFromYear_increasing (Date.YearFromDay d + 1) y). lia.
Qed.

Lemma DaysInYear_cases y : Date.DaysInYear y = 365 \/ Date.DaysInYear y = 366.
Proof. unfold Date.DaysInYear, Date.DayFromYear. Z.div_mod_to_equations. lia. Qed.

Lemma DayWithinYear_range t :
  0 <= Date.DayWithinYear t < 365 + Date.InLeapYear t.
Proof.
  unfold Date.DayWithinYear, Date.InLeapYear, Date.YearFromTime.
  pose proof (YearFromDay_spec (Date.Day t)) as [H1 H2].
  pose proof (DaysInYear_cases (Date.YearFromDay (Date.Day t))) as Hc.
  destruct (Z.eqb_spec (Date.DaysInYear (Date.YearFromDay (Date.Day t))) 366) as [E|E];
    unfold Date.DaysInYear in *; lia.
Qed.

Lemma MonthAndDate_range t :
  0 <= Date.MonthFromTime t <= 11 /\ 1 <= Date.DateFromTime t <= 31.
Proof.
  unfold Date.MonthFromTime, Date.DateFromTime, Date.MonthAndDate. cbv zeta.
  pose proof (DayWithinYear_range t) as H.
  assert (Hl : Date.InLeapYear t = 0 \/ Date.InLeapYear t = 1).
  { unfold Date.InLeapYear. destruct (_ =? _); auto. }
  repeat match goal with
  | |- context [?a <? ?b] => destruct (Z.ltb_spec a b)
  end; cbn [fst snd]; lia.
Qed.

Lemma digit_char_is_digit d c :
  0 <= d < 10 ->
  JsString.digit_value c = None ->
  Ascii.eqb (Date.digit_char d) c = false.
Proof.
  intros Hd Hc. destruct (Ascii.eqb_spec (Date.digit_char d) c) as [<-|]; [|reflexivity].
  assert (d = 0 \/ d = 1 \/ d = 2 \/ d = 3 \/ d = 4 \/ d = 5 \/ d = 6 \/ d = 7
          \/ d = 8 \/ d = 9) as Hcases by lia.
  repeat (destruct Hcases as [->|Hcases]; [discriminate Hc|]).
  subst d. discriminate Hc.
Qed.

Lemma pad_digits c width : forall n,
  JsString.digit_value c = None -> JsString.occurs c (Date.pad width n) = false.
Proof.
  induction width as [|w IH]; intros n Hc; [reflexivity|].
  cbn [Date.pad]. rewrite occurs_append, (IH _ Hc).
  cbn [JsString.occurs orb].
  rewrite (digit_char_is_digit (n mod 10) c); [reflexivity| |exact Hc].
  apply Z.mod_pos_bound. lia.
Qed.

Lemma pad_length width : forall n, String.length (Date.pad width n) = width.
Proof.
  induction width as [|w IH]; intros n; [reflexivity|].
  cbn [Date.pad]. rewrite length_append, IH. cbn [String.length]. lia.
Qed.

Lemma DateString_free_of_T t : JsString.occurs "T" (Date.DateString t) = false.
Proof.
  unfold Date.DateString, Date.YearString.
  rewrite !occurs_append.
  rewrite !(pad_digits "T" 2) by reflexivity.
  destruct (_ && _).
  - now rewrite (pad_digits "T" 4).
  - rewrite occurs_append, (pad_digits "T" 6) by reflexivity.
    now destruct (_ <? 0).
Qed.

Lemma ISO_date_part t :
  fst (JsString.split "T" (Date.toISOString t)) = Date.DateString t.
Proof.
  unfold Date.toISOString.
  change (Date.DateString t +:+ "T" +:+ Date.TimeString t +:+ "Z")
    with (Date.DateString t +:+ String "T" (Date.TimeString t +:+ "Z")).
  apply split_at_first, DateString_free_of_T.
Qed.

Lemma DateString_length t :
  0 <= Date.YearFromTime t <= 9999 ->
  String.length (Date.DateString t) = 10%nat.
Proof.
  intros [H0 H1]. unfold Date.DateString, Date.YearString.
  destruct (Z.leb_spec 0 (Date.YearFromTime t)); [|lia].
  destruct (Z.leb_spec (Date.YearFromTime t) 9999); [|lia].
  cbn [andb]. rewrite !length_append, !pad_length. reflexivity.
Qed.

(** The year, month and day of a time value, read back as a day number,
    give the day of that time value. *)
Lemma InLeapYear_LeapDays t :
  Date.InLeapYear t = Date.LeapDays (Date.YearFromTime t).
Proof.
  unfold Date.InLeapYear, Date.LeapDays.
  destruct (DaysInYear_cases (Date.YearFromTime t)) as [E|E]; rewrite E; reflexivity.
Qed.

Lemma calendar_round_trip t :
  let y := Date.YearFromTime t in
  let m := Date.MonthFromTime t in
  let d := Date.DateFromTime t in
  0 <= m <= 11
  /\ 1 <= d <= Date.DaysInMonth (Date.LeapDays y) m
  /\ Date.DayOfDate y m d = Date.Day t.
Proof.
  cbv zeta. unfold Date.DayOfDate, Date.MonthFromTime, Date.DateFromTime,
    Date.MonthAndDate. cbv zeta.
  rewrite <- InLeapYear_LeapDays.
  pose proof (DayWithinYear_range t) as H.
  assert (Hl : Date.InLeapYear t = 0 \/ Date.InLeapYear t = 1).
  { unfold Date.InLeapYear. destruct (_ =? _); auto. }
  assert (Hd : Date.DayWithinYear t = Date.Day t - Date.DayFromYear (Date.YearFromTime t))
    by reflexivity.
  repeat match goal with
  | |- context [?a <? ?b] => destruct (Z.ltb_spec a b)
  end; cbn [fst snd Date.DaysBeforeMonth Date.DaysInMonth]; lia.
Qed.

(** Leap days, the day before the epoch and the ends of the range. *)
Example toISOString_samples :
  Date.toISOString 0 = "1970-01-01T00:00:00.000Z"
  /\ Date.toISOString (-1) = "1969-12-31T23:59:59.999Z"
  /\ Date.toISOString 951782400000 = "2000-02-29T00:00:00.000Z"
  /\ Date.toISOString 1700000000000 = "2023-11-14T22:13:20.000Z"
  /\ Date.toISOString 4102444800000 = "2100-01-01T00:00:00.000Z"
  /\ Date.toISOString 8640000000000000 = "+275760-09-13T00:00:00.000Z"
  /\ Date.toISOString (-8640000000000000) = "-271821-04-20T00:00:00.000Z".
Proof. vm_compute. repeat split. Qed.

(** ** Form data *)

Lemma get_defined name fd : FormData.get name fd <> VUndefined.
Proof.
  induction fd as [|[k e] fd IH]; cbn [FormData.get]; [discriminate|].
  destruct (String.eqb k name); [destruct e; discriminate | exact IH].
Qed.

Lemma get_null_iff name fd :
  FormData.get name fd = VNull <-> FormData.has name fd = false.
Proof.
  induction fd as [|[k e] fd IH]; cbn [FormData.get FormData.has]; [tauto|].
  destruct (String.eqb k name); cbn [orb]; [|exact IH].
  split; [destruct e|]; discriminate.
Qed.

Lemma get_skip name k e (fd1 : FormData.t) : forall fd2 : FormData.t,
  k <> name ->
  FormData.get name (fd1 ++ (k, e) :: fd2)%list = FormData.get name (fd1 ++ fd2)%list.
Proof.
  induction fd1 as [|[k1 e1] fd1 IH]; intros fd2 Hne.
  - cbn [app FormData.get].
    destruct (String.eqb_spec k name); [contradiction|reflexivity].
  - cbn [app FormData.get]. now rewrite IH.
Qed.

(** ** Flattening of issues *)

Lemma flatten_fold_lookup issues :
  forall (acc : gmap string (list string)) (k : string),
  fold_left Zod.flatten_step issues acc !! k =
  match Zod.messages_at k issues with
  | [] => acc !! k
  | ms => Some (default [] (acc !! k) ++ ms)%list
  end.
Proof.
  induction issues as [|i issues IH]; intros acc k; [reflexivity|].
  cbn [fold_left]. rewrite IH. unfold Zod.messages_at. cbn [List.filter].
  destruct i as [c [|k' p] m];
    unfold Zod.flatten_step at 1 2, Zod.at_field at 2;
    cbn [Zod.path Zod.message].
  - reflexivity.
  - destruct (String.eqb_spec k' k) as [->|Hne].
    + cbn [map]. rewrite lookup_insert_eq. cbn [default].
      destruct (map Zod.message (List.filter (Zod.at_field k) issues)).
      * reflexivity.
      * unfold id. cbn [Zod.message]. now rewrite <- List.app_assoc.
    + rewrite lookup_insert_ne by exact Hne. reflexivity.
Qed.

Lemma flatten_fieldErrors_lookup issues k :
  Zod.flatten_fieldErrors issues !! k =
  match Zod.messages_at k issues with
  | [] => None
  | ms => Some ms
  end.
Proof.
  unfold Zod.flatten_fieldErrors.
  rewrite flatten_fold_lookup, lookup_empty. reflexivity.
Qed.

Lemma messages_at_cons key c k m issues :
  Zod.messages_at key (Zod.issue c k m :: issues) =
  if String.eqb k key then m :: Zod.messages_at key issues
  else Zod.messages_at key issues.
Proof.
  unfold Zod.messages_at. cbn [List.filter].
  unfold Zod.at_field at 1. cbn [Zod.path Zod.issue].
  destruct (String.eqb k key); reflexivity.
Qed.

Lemma messages_at_nil key : Zod.messages_at key [] = [].
Proof. reflexivity. Qed.

(** * The schema on a submission *)

Lemma CreateInvoice_shape :
  CreateInvoice =
  [ ("customerId", Zod.z_string (Some "Please select a customer."));
    ("amount",
      Zod.z_coerce_number
        [Zod.gt (Number.of_Z 0) "Please enter an amount greater than $0."]);
    ("status",
      Zod.z_enum ["pending"; "paid"] (Some "Please select an invoice status.")) ].
Proof. reflexivity. Qed.

Section Submission.

Variable fd : FormData.t.

Lemma field_result_customerId :
  field_result CreateInvoice (submitted fd) "customerId" = Some (check_customerId fd).
Proof. reflexivity. Qed.

Lemma field_result_amount :
  field_result CreateInvoice (submitted fd) "amount" = Some (check_amount fd).
Proof. reflexivity. Qed.

Lemma field_result_status :
  field_result CreateInvoice (submitted fd) "status" = Some (check_status fd).
Proof. reflexivity. Qed.

Lemma field_result_cases key :
  field_result CreateInvoice (submitted fd) key =
  if String.eqb "customerId" key then Some (check_customerId fd)
  else if String.eqb "amount" key then Some (check_amount fd)
  else if String.eqb "status" key then Some (check_status fd)
  else None.
Proof.
  rewrite CreateInvoice_shape. cbn [field_result].
  repeat match goal with
  | |- context [String.eqb ?k key] =>
      destruct (String.eqb_spec k key) as [<-|?]; [reflexivity|]
  end.
  reflexivity.
Qed.

Lemma validate_checks :
  validate fd =
  match check_customerId fd, check_amount fd, check_status fd with
  | Zod.OK c, Zod.OK a, Zod.OK s =>
      Zod.Success [("customerId", c); ("amount", a); ("status", s)]
  | rc, ra, rs =>
      Zod.Failure
        (Zod.issues_of rc ++ Zod.issues_of ra ++ Zod.issues_of rs)%list
  end.
Proof.
  unfold validate, Zod.safeParse. rewrite CreateInvoice_shape.
  change (Zod.z_object _ [] (submitted fd)) with
    (match check_customerId fd,
           match check_amount fd,
                 match check_status fd, @Zod.OK JsObject [] with
                 | Zod.OK v, Zod.OK o => Zod.OK (("status", v) :: o)
                 | Zod.OK _, Zod.INVALID issues => Zod.INVALID issues
                 | Zod.INVALID issues, Zod.OK _ => Zod.INVALID issues
                 | Zod.INVALID issues, Zod.INVALID issues' =>
                     Zod.INVALID (issues ++ issues')%list
                 end with
           | Zod.OK v, Zod.OK o => Zod.OK (("amount", v) :: o)
           | Zod.OK _, Zod.INVALID issues => Zod.INVALID issues
           | Zod.INVALID issues, Zod.OK _ => Zod.INVALID issues
           | Zod.INVALID issues, Zod.INVALID issues' =>
               Zod.INVALID (issues ++ issues')%list
           end with
     | Zod.OK v, Zod.OK o => Zod.OK (("customerId", v) :: o)
     | Zod.OK _, Zod.INVALID issues => Zod.INVALID issues
     | Zod.INVALID issues, Zod.OK _ => Zod.INVALID issues
     | Zod.INVALID issues, Zod.INVALID issues' =>
         Zod.INVALID (issues ++ issues')%list
     end).
  destruct (check_customerId fd), (check_amount fd), (check_status fd);
    cbn [Zod.issues_of app]; rewrite ?List.app_nil_r; reflexivity.
Qed.

Lemma check_customerId_spec :
  check_customerId fd =
  match FormData.get "customerId" fd with
  | VString s => Zod.OK (VString s)
  | _ =>
      Zod.INVALID
        [Zod.issue Zod.invalid_type "customerId" "Please select a customer."]
  end.
Proof.
  unfold check_customerId. pose proof (get_defined "customerId" fd) as H.
  destruct (FormData.get "customerId" fd); try reflexivity. now destruct H.
Qed.

Lemma check_amount_spec :
  check_amount fd =
  let a := ToNumber (FormData.get "amount" fd) in
  if Number.isNaN a
  then
    Zod.INVALID
      [Zod.issue Zod.invalid_type "amount" "Expected number, received nan"]
  else if Number.leb a Number.zero
  then
    Zod.INVALID
      [Zod.issue Zod.too_small "amount"
         "Please enter an amount greater than $0."]
  else Zod.OK (VNumber a).
Proof.
  unfold check_amount, Zod.z_coerce_number. cbv zeta.
  destruct (Number.isNaN (ToNumber (FormData.get "amount" fd))) eqn:Hnan.
  - unfold Zod.invalid_type_issue, Zod.invalid_type_message, Zod.parsedType.
    rewrite Hnan. reflexivity.
  - unfold Zod.check_issues. cbn [omap list_omap].
    unfold Zod.tooSmall. cbn [Zod.inclusive Zod.gt Zod.value Zod.check_message].
    rewrite of_Z_0.
    destruct (Number.leb _ Number.zero); reflexivity.
Qed.

Lemma check_status_spec :
  check_status fd =
  match FormData.get "status" fd with
  | VString s =>
      if String.eqb s "pending" || String.eqb s "paid" then Zod.OK (VString s)
      else
        Zod.INVALID
          [Zod.issue Zod.invalid_enum_value "status"
             ("Invalid enum value. Expected 'pending' | 'paid', received '"
                +:+ s +:+ "'")]
  | _ =>
      Zod.INVALID
        [Zod.issue Zod.invalid_type "status"
           "Please select an invoice status."]
  end.
Proof.
  unfold check_status. pose proof (get_defined "status" fd) as H.
  destruct (FormData.get "status" fd) as [| |s| |]; try reflexivity.
  - now destruct H.
  - unfold Zod.z_enum. cbn [existsb]. rewrite orb_false_r.
    destruct (String.eqb s "pending" || String.eqb s "paid"); reflexivity.
Qed.

Lemma check_customerId_verdict : Zod.verdict "customerId" (check_customerId fd).
Proof.
  rewrite check_customerId_spec.
  destruct (FormData.get "customerId" fd); constructor.
Qed.

Lemma check_amount_verdict : Zod.verdict "amount" (check_amount fd).
Proof.
  rewrite check_amount_spec. cbv zeta.
  destruct (Number.isNaN _); [constructor|].
  destruct (Number.leb _ _); constructor.
Qed.

Lemma check_status_verdict : Zod.verdict "status" (check_status fd).
Proof.
  rewrite check_status_spec.
  destruct (FormData.get "status" fd); try constructor.
  destruct (_ || _); constructor.
Qed.

Lemma offending_cases key :
  offending fd key <->
  (key = "customerId" /\ exists issues, check_customerId fd = Zod.INVALID issues) \/
  (key = "amount" /\ exists issues, check_amount fd = Zod.INVALID issues) \/
  (key = "status" /\ exists issues, check_status fd = Zod.INVALID issues).
Proof.
  unfold offending. rewrite field_result_cases.
  destruct (String.eqb_spec "customerId" key) as [<-|Hc].
  { split.
    - intros [issues H]. left. split; [reflexivity|]. exists issues. congruence.
    - intros [[_ [issues H]]|[[H _]|[H _]]]; try discriminate.
      exists issues. congruence. }
  destruct (String.eqb_spec "amount" key) as [<-|Ha].
  { split.
    - intros [issues H]. right; left. split; [reflexivity|]. exists issues. congruence.
    - intros [[H _]|[[_ [issues H]]|[H _]]]; try discriminate.
      exists issues. congruence. }
  destruct (String.eqb_spec "status" key) as [<-|Hs].
  { split.
    - intros [issues H]. right; right. split; [reflexivity|]. exists issues. congruence.
    - intros [[H _]|[[H _]|[_ [issues H]]]]; try discriminate.
      exists issues. congruence. }
  split.
  - intros [issues H]. discriminate.
  - intros [[H _]|[[H _]|[H _]]]; congruence.
Qed.

Lemma field_errors_of_failure error key :
  validate fd = Zod.Failure error ->
  Zod.flatten_fieldErrors error !! key =
  match
    Zod.messages_at key
      (Zod.issues_of (check_customerId fd) ++ Zod.issues_of (check_amount fd)
         ++ Zod.issues_of (check_status fd))%list
  with
  | [] => None
  | ms => Some ms
  end.
Proof.
  intros H. rewrite flatten_fieldErrors_lookup.
  rewrite validate_checks in H.
  destruct (check_customerId fd), (check_amount fd), (check_status fd);
    try discriminate; injection H as <-; reflexivity.
Qed.

Lemma validate_success data :
  validate fd = Zod.Success data ->
  exists c s,
    FormData.get "customerId" fd = VString c /\
    FormData.get "status" fd = VString s /\
    check_amount fd = Zod.OK (VNumber (ToNumber (FormData.get "amount" fd))) /\
    data = [("customerId", VString c);
            ("amount", VNumber (ToNumber (FormData.get "amount" fd)));
            ("status", VString s)].
Proof.
  rewrite validate_checks, check_customerId_spec, check_status_spec.
  pose proof (check_amount_spec) as Ha. cbv zeta in Ha.
  destruct (FormData.get "customerId" fd) as [| |c| |]; 
    destruct (check_amount fd) as [a|?] eqn:Ea;
    destruct (FormData.get "status" fd) as [| |s| |];
    try destruct (String.eqb s "pending" || String.eqb s "paid");
    try discriminate.
  intros [= <-]. exists c, s.
  destruct (Number.isNaN _); [discriminate|].
  destruct (Number.leb _ _); [discriminate|].
  injection Ha as ->. auto.
Qed.

Lemma rejected_amount :
  Number.leb (ToNumber (FormData.get "amount" fd)) Number.zero = true ->
  check_amount fd
  = Zod.INVALID
      [Zod.issue Zod.too_small "amount"
         "Please enter an amount greater than $0."].
Proof.
  intros H. rewrite check_amount_spec. cbv zeta.
  rewrite (leb_zero_not_NaN _ H), H. reflexivity.
Qed.

Lemma amount_errors_of_rejection m :
  check_amount fd = Zod.INVALID [Zod.issue Zod.too_small "amount" m] ->
  exists error, validate fd = Zod.Failure error /\
                Zod.flatten_fieldErrors error !! "amount" = Some [m].
Proof.
  intros Ha.
  assert (exists error, validate fd = Zod.Failure error) as [error He].
  { rewrite validate_checks, Ha.
    destruct (check_customerId fd), (check_status fd); eauto. }
  exists error. split; [exact He|].
  rewrite (field_errors_of_failure error "amount" He), Ha.
  destruct (check_customerId_verdict), (check_status_verdict); reflexivity.
Qed.

Lemma status_errors_of_rejection c m :
  check_status fd = Zod.INVALID [Zod.issue c "status" m] ->
  exists error, validate fd = Zod.Failure error /\
                Zod.flatten_fieldErrors error !! "status" = Some [m].
Proof.
  intros Hs.
  assert (exists error, validate fd = Zod.Failure error) as [error He].
  { rewrite validate_checks, Hs.
    destruct (check_customerId fd), (check_amount fd); eauto. }
  exists error. split; [exact He|].
  rewrite (field_errors_of_failure error "status" He), Hs.
  destruct (check_customerId_verdict), (check_amount_verdict); reflexivity.
Qed.

Lemma status_errors_of_acceptance v error :
  check_status fd = Zod.OK v ->
  validate fd = Zod.Failure error ->
  Zod.flatten_fieldErrors error !! "status" = None.
Proof.
  intros Hs He.
  rewrite (field_errors_of_failure error "status" He), Hs.
  destruct (check_customerId_verdict), (check_amount_verdict); reflexivity.
Qed.

End Submission.

(** * Runs of the actions *)

Lemma createInvoice_run w prev fd :
  createInvoice w prev fd =
  match validate fd with
  | Zod.Failure error =>
      validation_error error "Missing Fields. Failed to Create Invoice."
  | Zod.Success data =>
      write_then_leave w (insert_statement w data)
        "Database Error: Failed to Create Invoice."
  end.
Proof.
  unfold createInvoice. fold (submitted fd). fold (validate fd).
  destruct (validate fd) as [data|error]; [|reflexivity].
  fold (insert_statement w data).
  unfold write_then_leave, sql, call.
  destruct (sql_raises w (insert_statement w data)); reflexivity.
Qed.

Lemma updateInvoice_run w id prev fd :
  updateInvoice w id prev fd =
  match validate fd with
  | Zod.Failure error =>
      validation_error error "Missing Fields. Failed to Update Invoice."
  | Zod.Success data =>
      write_then_leave w (update_statement id data)
        "Database Error: Failed to Update Invoice."
  end.
Proof.
  unfold updateInvoice. fold (submitted fd).
  change (Zod.safeParse UpdateInvoice (submitted fd)) with (validate fd).
  destruct (validate fd) as [data|error]; [|reflexivity].
  fold (update_statement id data).
  unfold write_then_leave, sql, call.
  destruct (sql_raises w (update_statement id data)); reflexivity.
Qed.

Lemma deleteInvoice_run w id :
  deleteInvoice w id =
  let q := DELETE_FROM_invoices (VString id) in
  match sql_raises w q with
  | None => ([CallSql q; CallRevalidatePath "/dashboard/invoices"], Fulfilled None)
  | Some _ =>
      ([CallSql q],
       Fulfilled
         (Some {| errors := None;
                  message := Some "Database Error: Failed to Delete Invoice." |}))
  end.
Proof.
  unfold deleteInvoice, sql, call. cbv zeta.
  destruct (sql_raises w (DELETE_FROM_invoices (VString id))); reflexivity.
Qed.

Lemma authenticate_run w prev fd :
  authenticate w prev fd =
  ([CallSignIn "credentials" fd],
   match signIn_raises w "credentials" fd with
   | None => Fulfilled None
   | Some (AuthError type) =>
       Fulfilled (Some {| errors := None;
                          message := Some (if String.eqb type "CredentialsSignin"
                                           then "Invalid credentials."
                                           else "Something went wrong.") |})
   | Some e => Rejected e
   end).
Proof.
  unfold authenticate, signIn, call.
  destruct (signIn_raises w "credentials" fd) as [[type| |]|]; try reflexivity.
  cbn [try_catch]. destruct (String.eqb type "CredentialsSignin"); reflexivity.
Qed.

Lemma field_errors_validation_error error m key :
  field_errors (validation_error error m) key = Zod.flatten_fieldErrors error !! key.
Proof. reflexivity. Qed.

Lemma field_errors_write_then_leave w q failure key :
  field_errors (write_then_leave w q failure) key = None.
Proof. unfold write_then_leave. destruct (sql_raises w q); reflexivity. Qed.

Lemma trace_validation_error error m : trace (validation_error error m) = [].
Proof. reflexivity. Qed.

Lemma head_write_then_leave w q failure :
  head (trace (write_then_leave w q failure)) = Some (CallSql q).
Proof. unfold write_then_leave. destruct (sql_raises w q); reflexivity. Qed.

Lemma summary_create_failure w prev fd error :
  validate fd = Zod.Failure error ->
  summary (createInvoice w prev fd) = Some "Missing Fields. Failed to Create Invoice.".
Proof. intros H. now rewrite createInvoice_run, H. Qed.

Lemma summary_update_failure w id prev fd error :
  validate fd = Zod.Failure error ->
  summary (updateInvoice w id prev fd) = Some "Missing Fields. Failed to Update Invoice.".
Proof. intros H. now rewrite updateInvoice_run, H. Qed.

Lemma createInvoice_first_call w prev fd q :
  head (trace (createInvoice w prev fd)) = Some (CallSql q) ->
  exists data, validate fd = Zod.Success data /\ q = insert_statement w data.
Proof.
  rewrite createInvoice_run. destruct (validate fd) as [data|error].
  - rewrite head_write_then_leave. intros [= <-]. eauto.
  - discriminate.
Qed.

Lemma updateInvoice_first_call w id prev fd q :
  head (trace (updateInvoice w id prev fd)) = Some (CallSql q) ->
  exists data, validate fd = Zod.Success data /\ q = update_statement id data.
Proof.
  rewrite updateInvoice_run. destruct (validate fd) as [data|error].
  - rewrite head_write_then_leave. intros [= <-]. eauto.
  - discriminate.
Qed.

Lemma written_amount_create w prev fd data :
  validate fd = Zod.Success data ->
  written_amount (createInvoice w prev fd) =
  Some (VNumber (Number.mul (Number.of_Z 100) (ToNumber (FormData.get "amount" fd)))).
Proof.
  intros H. rewrite createInvoice_run, H.
  destruct (validate_success fd data H) as (c & s & _ & _ & _ & ->).
  unfold write_then_leave, written_amount.
  destruct (sql_raises w _); reflexivity.
Qed.

Lemma written_amount_update w id prev fd data :
  validate fd = Zod.Success data ->
  written_amount (updateInvoice w id prev fd) =
  Some (VNumber (Number.mul (ToNumber (FormData.get "amount" fd)) (Number.of_Z 100))).
Proof.
  intros H. rewrite updateInvoice_run, H.
  destruct (validate_success fd data H) as (c & s & _ & _ & _ & ->).
  unfold write_then_leave, written_amount.
  destruct (sql_raises w _); reflexivity.
Qed.

Lemma insert_statement_fields w c a s :
  insert_statement w [("customerId", c); ("amount", VNumber a); ("status", s)] =
  INSERT_INTO_invoices c (VNumber (Number.mul (Number.of_Z 100) a)) s
    (VString (Date.DateString (now w))).
Proof. unfold insert_statement. rewrite ISO_date_part. reflexivity. Qed.

Lemma createInvoice_reads_three_fields w prev prev' fd fd' :
  FormData.get "customerId" fd' = FormData.get "customerId" fd ->
  FormData.get "amount" fd' = FormData.get "amount" fd ->
  FormData.get "status" fd' = FormData.get "status" fd ->
  validate fd' = validate fd /\ createInvoice w prev' fd' = createInvoice w prev fd.
Proof.
  intros Hc Ha Hs.
  assert (Hv : validate fd' = validate fd).
  { unfold validate, submitted. now rewrite Hc, Ha, Hs. }
  split; [exact Hv|]. now rewrite !createInvoice_run, Hv.
Qed.

(** Two runs: a valid form on a store that accepts it, and a form whose
    three fields are all rejected. *)
Example createInvoice_sample_run :
  createInvoice Sample.store_accepts Sample.blank (Sample.invoice "12.50" "pending")
  = ([CallSql (INSERT_INTO_invoices (VString "cust-1") (VNumber (Number.of_Z 1250))
                 (VString "pending") (VString "2023-11-14"));
      CallRevalidatePath "/dashboard/invoices";
      CallRedirect "/dashboard/invoices"],
     Rejected (RedirectError "/dashboard/invoices")).
Proof. vm_compute. reflexivity. Qed.

Example createInvoice_sample_rejection :
  createInvoice Sample.store_accepts Sample.blank
    [("customerId", FormData.EntryFile "scan.pdf");
     ("amount", FormData.EntryString "twelve");
     ("status", FormData.EntryString "overdue")]
  = ([],
     Fulfilled
       (Some {| errors :=
                  Some {[ "customerId" := ["Please select a customer."];
                          "amount" := ["Expected number, received nan"];
                          "status" :=
                            ["Invalid enum value. Expected 'pending' | 'paid', received 'overdue'"] ]};
                message := Some "Missing Fields. Failed to Create Invoice." |})).
Proof. vm_compute. reflexivity. Qed.

(** * The claims *)




(** The same amounts, run: [0.125] is written as twelve cents and a half,
    which is no integer at all, and [19.99] as [1998.9999999999998], one
    unit in the last place below [1999]. *)

Example twelve_and_a_half_cents :
  written_amount
    (createInvoice Sample.store_accepts Sample.blank (Sample.invoice "0.125" "paid"))
  = Some (VNumber (S754_finite false 7036874417766400 (-49)))
  /\ Number.to_Q (S754_finite false 7036874417766400 (-49))
     = Some (7036874417766400 # 562949953421312)
  /\ forall z, Number.is_Z (S754_finite false 7036874417766400 (-49)) z = false.
Proof.
  split; [vm_compute; reflexivity|]. split; [vm_compute; reflexivity|].
  intros z. unfold Number.is_Z, Number.to_Q.
  change (0 <=? -49) with false. cbv iota.
  change (Z.to_pos (2 ^ (- (-49)))) with 562949953421312%positive.
  destruct (Qeq_bool _ _) eqn:E; [|reflexivity].
  apply Qeq_bool_eq in E. unfold Qeq in E. cbn [Qnum Qden inject_Z] in E. lia.
Qed.

Example nineteen_ninety_nine :
  let run :=
    createInvoice Sample.store_accepts Sample.blank
      (Sample.invoice "19.99" "paid") in
  written_amount run = Some (VNumber (S754_finite false 8791694975696895 (-42)))
  /\ spec_round_cents (ToNumber (VString "19.99")) = Some 1999
  /\ Number.is_Z (S754_finite false 8791694975696895 (-42)) 1999 = false
  /\ Number.of_Z 1999 = S754_finite false 8791694975696896 (-42).
Proof. vm_compute. auto. Qed.

(** C2. [authenticate] answers [Invalid credentials.] when [signIn] raises
    an [AuthError] of type [CredentialsSignin], answers
    [Something went wrong.] for an [AuthError] of any other type, and lets
    every error that is not an [AuthError] through: its promise rejects
    with that same error. *)
Theorem authenticate_maps_errors w prev fd :
  (signIn_raises w "credentials" fd = Some (AuthError "CredentialsSignin") ->
     authenticate w prev fd =
       ([CallSignIn "credentials" fd],
        Fulfilled (Some {| errors := None; message := Some "Invalid credentials." |})))
  /\ (forall type,
        signIn_raises w "credentials" fd = Some (AuthError type) ->
        type <> "CredentialsSignin" ->
        authenticate w prev fd =
          ([CallSignIn "credentials" fd],
           Fulfilled (Some {| errors := None; message := Some "Something went wrong." |})))
  /\ (forall e,
        signIn_raises w "credentials" fd = Some e ->
        (forall type, e <> AuthError type) ->
        authenticate w prev fd = ([CallSignIn "credentials" fd], Rejected e)).
Proof.
  rewrite authenticate_run. split; [|split].
  - intros ->. reflexivity.
  - intros type -> Hne.
    destruct (String.eqb_spec type "CredentialsSignin"); [contradiction|reflexivity].
  - intros e -> Hne. destruct e as [type| |]; try reflexivity.
    now destruct (Hne type).
Qed.

Lemma authenticate_maps_errors_witness :
  authenticate Sample.store_rejects PrevUndefined Sample.credentials
  = ([CallSignIn "credentials" Sample.credentials],
     Fulfilled (Some {| errors := None; message := Some "Invalid credentials." |}))
  /\ authenticate Sample.provider_misconfigured PrevUndefined Sample.credentials
     = ([CallSignIn "credentials" Sample.credentials],
        Fulfilled (Some {| errors := None; message := Some "Something went wrong." |}))
  /\ authenticate Sample.provider_unreachable PrevUndefined Sample.credentials
     = ([CallSignIn "credentials" Sample.credentials],
        Rejected (OtherError "fetch failed")).
Proof.
  split; [|split].
  - apply (proj1 (authenticate_maps_errors
                    Sample.store_rejects PrevUndefined Sample.credentials)).
    reflexivity.
  - apply (proj1 (proj2 (authenticate_maps_errors
                    Sample.provider_misconfigured PrevUndefined Sample.credentials))
             "CallbackRouteError").
    + reflexivity.
    + discriminate.
  - apply (proj2 (proj2 (authenticate_maps_errors
                    Sample.provider_unreachable PrevUndefined Sample.credentials))).
    + reflexivity.
    + discriminate.
Defined.

(** C3. When the insert issued by [createInvoice] raises an error, whatever
    it is, [createInvoice] returns the state whose message is
    [Database Error: Failed to Create Invoice.]; the error does not
    propagate, and neither [revalidatePath] nor [redirect] is called. *)
Theorem createInvoice_store_failure w prev fd q e :
  head (trace (createInvoice w prev fd)) = Some (CallSql q) ->
  sql_raises w q = Some e ->
  createInvoice w prev fd =
    ([CallSql q],
     Fulfilled (Some {| errors := None;
                        message := Some "Database Error: Failed to Create Invoice." |}))
  /\ (forall ev, In ev (trace (createInvoice w prev fd)) ->
        is_revalidate ev = false /\ is_redirect ev = false)
  /\ forall e', settled (createInvoice w prev fd) <> Rejected e'.
Proof.
  intros Hq He.
  destruct (createInvoice_first_call w prev fd q Hq) as (data & Hv & ->).
  assert (Hrun : createInvoice w prev fd =
    ([CallSql (insert_statement w data)],
     Fulfilled (Some {| errors := None;
                        message := Some "Database Error: Failed to Create Invoice." |}))).
  { rewrite createInvoice_run, Hv. unfold write_then_leave. now rewrite He. }
  rewrite Hrun. split; [reflexivity|]. split.
  - intros ev [<-|[]]. split; reflexivity.
  - intros e'. discriminate.
Qed.

Lemma createInvoice_store_failure_witness :
  let q := INSERT_INTO_invoices (VString "cust-1") (VNumber (Number.of_Z 1200))
             (VString "pending") (VString "2023-11-14") in
  createInvoice Sample.store_rejects Sample.blank (Sample.invoice "12" "pending")
  = ([CallSql q],
     Fulfilled (Some {| errors := None;
                        message := Some "Database Error: Failed to Create Invoice." |})).
Proof.
  intros q.
  apply (proj1 (createInvoice_store_failure
                  Sample.store_rejects Sample.blank (Sample.invoice "12" "pending")
                  q (OtherError "foreign key violation")
                  ltac:(vm_compute; reflexivity) ltac:(reflexivity))).
Defined.

(** C4. A status equal to [pending] or [paid] passes the status validator
    and is never reported as an error; any other submitted status, a
    missing one included, makes validation fail in [createInvoice] and
    [updateInvoice] with a message filed under [status]. *)
Theorem status_must_be_pending_or_paid w id prev fd :
  (forall s, FormData.get "status" fd = VString s ->
             s = "pending" \/ s = "paid" ->
     field_result CreateInvoice (submitted fd) "status" = Some (Zod.OK (VString s))
     /\ ~ offending fd "status"
     /\ field_errors (createInvoice w prev fd) "status" = None
     /\ field_errors (updateInvoice w id prev fd) "status" = None)
  /\
  (FormData.get "status" fd <> VString "pending" ->
   FormData.get "status" fd <> VString "paid" ->
     offending fd "status"
     /\ (exists error, validate fd = Zod.Failure error)
     /\ exists m,
          field_errors (createInvoice w prev fd) "status" = Some [m]
          /\ field_errors (updateInvoice w id prev fd) "status" = Some [m])
  /\
  (FormData.has "status" fd = false ->
     offending fd "status"
     /\ field_errors (createInvoice w prev fd) "status"
        = Some ["Please select an invoice status."]
     /\ field_errors (updateInvoice w id prev fd) "status"
        = Some ["Please select an invoice status."]).
Proof.
  split; [|split].
  - intros s Hget Hs.
    assert (Hok : check_status fd = Zod.OK (VString s)).
    { rewrite check_status_spec, Hget. now destruct Hs as [->| ->]. }
    split; [rewrite field_result_status; congruence|].
    split.
    { rewrite offending_cases. intros [[H _]|[[H _]|[_ [i H]]]]; congruence. }
    rewrite createInvoice_run, updateInvoice_run.
    destruct (validate fd) as [data|error] eqn:He.
    + now rewrite !field_errors_write_then_leave.
    + rewrite !field_errors_validation_error.
      now rewrite (status_errors_of_acceptance fd _ error Hok He).
  - intros Hpending Hpaid.
    assert (exists c m, check_status fd = Zod.INVALID [Zod.issue c "status" m])
      as (c & m & Hbad).
    { rewrite check_status_spec.
      destruct (FormData.get "status" fd) as [| |s| |]; eauto.
      destruct (String.eqb_spec s "pending") as [->|?]; [now destruct Hpending|].
      destruct (String.eqb_spec s "paid") as [->|?]; [now destruct Hpaid|].
      cbn [orb]. eauto. }
    destruct (status_errors_of_rejection fd c m Hbad) as (error & He & Hm).
    split; [apply offending_cases; eauto 8|].
    split; [eauto|]. exists m.
    rewrite createInvoice_run, updateInvoice_run, He.
    now rewrite !field_errors_validation_error, Hm.
  - intros Habsent. apply get_null_iff in Habsent.
    assert (Hbad : check_status fd
                   = Zod.INVALID [Zod.issue Zod.invalid_type "status"
                                    "Please select an invoice status."]).
    { rewrite check_status_spec, Habsent. reflexivity. }
    destruct (status_errors_of_rejection fd _ _ Hbad) as (error & He & Hm).
    split; [apply offending_cases; eauto 8|].
    rewrite createInvoice_run, updateInvoice_run, He.
    now rewrite !field_errors_validation_error, Hm.
Qed.

Lemma status_must_be_pending_or_paid_witness :
  field_errors
    (createInvoice Sample.store_accepts Sample.blank (Sample.invoice "-1" "paid"))
    "status" = None
  /\ offending (Sample.invoice "12" "overdue") "status"
  /\ field_errors
       (createInvoice Sample.store_accepts Sample.blank Sample.without_status)
       "status"
     = Some ["Please select an invoice status."].
Proof.
  split; [|split].
  - refine (proj1 (proj2 (proj2 (proj1 (status_must_be_pending_or_paid
              Sample.store_accepts "inv-1" Sample.blank (Sample.invoice "-1" "paid"))
              "paid" _ _)))).
    + reflexivity.
    + right. reflexivity.
  - apply (proj1 (proj2 (status_must_be_pending_or_paid
              Sample.store_accepts "inv-1" Sample.blank
              (Sample.invoice "12" "overdue"))));
      vm_compute; discriminate.
  - apply (proj2 (proj2 (status_must_be_pending_or_paid
              Sample.store_accepts "inv-1" Sample.blank Sample.without_status))).
    reflexivity.
Defined.

(** C5. When validation succeeds and the write does not raise,
    [createInvoice] and [updateInvoice] call [revalidatePath] on the
    listing route and then [redirect] to it; the redirect ends the run, so
    no state is returned. A valid form always leads to the write. *)
Theorem success_path_ends_in_redirect w id prev fd :
  (forall q,
     head (trace (createInvoice w prev fd)) = Some (CallSql q) ->
     sql_raises w q = None ->
     createInvoice w prev fd =
       ([CallSql q; CallRevalidatePath "/dashboard/invoices";
         CallRedirect "/dashboard/invoices"],
        Rejected (RedirectError "/dashboard/invoices"))
     /\ returned_state (createInvoice w prev fd) = None)
  /\
  (forall q,
     head (trace (updateInvoice w id prev fd)) = Some (CallSql q) ->
     sql_raises w q = None ->
     updateInvoice w id prev fd =
       ([CallSql q; CallRevalidatePath "/dashboard/invoices";
         CallRedirect "/dashboard/invoices"],
        Rejected (RedirectError "/dashboard/invoices"))
     /\ returned_state (updateInvoice w id prev fd) = None)
  /\
  (forall data, validate fd = Zod.Success data ->
     head (trace (createInvoice w prev fd))
     = Some (CallSql (insert_statement w data))
     /\ head (trace (updateInvoice w id prev fd))
        = Some (CallSql (update_statement id data))).
Proof.
  split; [|split].
  - intros q Hq Hok.
    destruct (createInvoice_first_call w prev fd q Hq) as (data & Hv & ->).
    rewrite createInvoice_run, Hv. unfold write_then_leave. rewrite Hok. now split.
  - intros q Hq Hok.
    destruct (updateInvoice_first_call w id prev fd q Hq) as (data & Hv & ->).
    rewrite updateInvoice_run, Hv. unfold write_then_leave. rewrite Hok. now split.
  - intros data Hv. rewrite createInvoice_run, updateInvoice_run, Hv.
    now rewrite !head_write_then_leave.
Qed.

Lemma success_path_ends_in_redirect_witness :
  let q := UPDATE_invoices (VString "cust-1") (VNumber (Number.of_Z 1200))
             (VString "paid") (VString "inv-1") in
  updateInvoice Sample.store_accepts "inv-1" Sample.blank (Sample.invoice "12" "paid")
  = ([CallSql q; CallRevalidatePath "/dashboard/invoices";
      CallRedirect "/dashboard/invoices"],
     Rejected (RedirectError "/dashboard/invoices")).
Proof.
  intros q.
  apply (proj1 (proj2 (success_path_ends_in_redirect
                  Sample.store_accepts "inv-1" Sample.blank
                  (Sample.invoice "12" "paid"))) q).
  - vm_compute. reflexivity.
  - reflexivity.
Defined.

(** C6. When validation fails, [createInvoice] and [updateInvoice] return at
    once, without any external call (no write, no invalidation, no
    redirect), a state with the summary message and, for every offending
    field, a non-empty list of messages; fields that are not offending
    have no entry. At least one field is offending. *)
Theorem validation_failure_returns_early w id prev fd error :
  validate fd = Zod.Failure error ->
  exists fieldErrors,
    createInvoice w prev fd =
      ([], Fulfilled (Some {| errors := Some fieldErrors;
                              message := Some "Missing Fields. Failed to Create Invoice." |}))
    /\ updateInvoice w id prev fd =
      ([], Fulfilled (Some {| errors := Some fieldErrors;
                              message := Some "Missing Fields. Failed to Update Invoice." |}))
    /\ (exists key, offending fd key)
    /\ forall key,
         (offending fd key -> exists m ms, fieldErrors !! key = Some (m :: ms))
         /\ (~ offending fd key -> fieldErrors !! key = None).
Proof.
  intros H. exists (Zod.flatten_fieldErrors error).
  rewrite createInvoice_run, updateInvoice_run, H.
  split; [reflexivity|]. split; [reflexivity|].
  assert (Hkeys : forall key,
             (offending fd key ->
              exists m ms, Zod.flatten_fieldErrors error !! key = Some (m :: ms))
             /\ (~ offending fd key -> Zod.flatten_fieldErrors error !! key = None)).
  { intros key. rewrite (field_errors_of_failure fd error key H), offending_cases.
    destruct (check_customerId_verdict fd) as [vc|cc mc];
    destruct (check_amount_verdict fd) as [va|ca ma];
    destruct (check_status_verdict fd) as [vs|cs ms];
    cbn [Zod.issues_of app]; rewrite ?messages_at_cons, ?messages_at_nil;
    (split;
     [ intros [[-> [i Hi]]|[[-> [i Hi]]|[-> [i Hi]]]]; try discriminate Hi;
       cbn [String.eqb Ascii.eqb Bool.eqb]; eauto
     | intros Hno;
       repeat match goal with
       | |- context [String.eqb ?k key] =>
           destruct (String.eqb_spec k key) as [<-|?];
           [ exfalso; apply Hno; eauto 8 | ]
       end; reflexivity ]). }
  split; [|exact Hkeys].
  rewrite validate_checks in H.
  destruct (check_customerId fd) eqn:Ec;
    [|exists "customerId"; apply offending_cases; eauto].
  destruct (check_amount fd) eqn:Ea;
    [|exists "amount"; apply offending_cases; eauto 6].
  destruct (check_status fd) eqn:Es;
    [discriminate|exists "status"; apply offending_cases; eauto 8].
Qed.

Lemma validation_failure_returns_early_witness :
  exists fieldErrors,
    createInvoice Sample.store_accepts Sample.blank Sample.without_status =
      ([], Fulfilled (Some {| errors := Some fieldErrors;
                              message := Some "Missing Fields. Failed to Create Invoice." |}))
    /\ updateInvoice Sample.store_accepts "inv-1" Sample.blank Sample.without_status =
      ([], Fulfilled (Some {| errors := Some fieldErrors;
                              message := Some "Missing Fields. Failed to Update Invoice." |}))
    /\ (exists key, offending Sample.without_status key)
    /\ forall key,
         (offending Sample.without_status key ->
          exists m ms, fieldErrors !! key = Some (m :: ms))
         /\ (~ offending Sample.without_status key -> fieldErrors !! key = None).
Proof.
  apply (validation_failure_returns_early
           Sample.store_accepts "inv-1" Sample.blank Sample.without_status
           [Zod.issue Zod.invalid_type "status" "Please select an invoice status."]).
  vm_compute. reflexivity.
Defined.

(** C7. For every id and every behaviour of the store, the promise of
    [deleteInvoice] is fulfilled, never rejected: when the delete does not
    raise it invalidates the listing route and returns nothing, and when
    the delete raises any error it returns the state whose message is
    [Database Error: Failed to Delete Invoice.]. *)
Theorem deleteInvoice_never_throws w id :
  let q := DELETE_FROM_invoices (VString id) in
  (forall e, settled (deleteInvoice w id) <> Rejected e)
  /\ (sql_raises w q = None ->
        deleteInvoice w id =
          ([CallSql q; CallRevalidatePath "/dashboard/invoices"], Fulfilled None))
  /\ (forall e, sql_raises w q = Some e ->
        deleteInvoice w id =
          ([CallSql q],
           Fulfilled (Some {| errors := None;
                              message :=
                                Some "Database Error: Failed to Delete Invoice." |}))).
Proof.
  intros q. rewrite deleteInvoice_run. cbv zeta. fold q.
  destruct (sql_raises w q) as [e0|]; cbn [settled snd];
    (split; [intros e; discriminate|split]); intros; try discriminate; reflexivity.
Qed.

Lemma deleteInvoice_never_throws_witness :
  deleteInvoice Sample.store_accepts "no-such-invoice"
  = ([CallSql (DELETE_FROM_invoices (VString "no-such-invoice"));
      CallRevalidatePath "/dashboard/invoices"], Fulfilled None)
  /\ deleteInvoice Sample.store_rejects "inv-1"
     = ([CallSql (DELETE_FROM_invoices (VString "inv-1"))],
        Fulfilled (Some {| errors := None;
                           message := Some "Database Error: Failed to Delete Invoice." |})).
Proof.
  split.
  - apply (proj1 (proj2 (deleteInvoice_never_throws
                           Sample.store_accepts "no-such-invoice"))).
    reflexivity.
  - apply (proj2 (proj2 (deleteInvoice_never_throws Sample.store_rejects "inv-1"))
             (OtherError "foreign key violation")).
    reflexivity.
Defined.

(** C8. [deleteInvoice] never calls [redirect] and never ends in the
    redirect signal; on success its only calls are the delete and the
    invalidation of the listing route. [createInvoice] and
    [updateInvoice], by contrast, call [redirect] on success. *)
Theorem deleteInvoice_never_redirects w id :
  (forall ev, In ev (trace (deleteInvoice w id)) -> is_redirect ev = false)
  /\ (forall url, settled (deleteInvoice w id) <> Rejected (RedirectError url))
  /\ (sql_raises w (DELETE_FROM_invoices (VString id)) = None ->
        trace (deleteInvoice w id) =
          [CallSql (DELETE_FROM_invoices (VString id));
           CallRevalidatePath "/dashboard/invoices"])
  /\ (forall prev fd q,
        head (trace (createInvoice w prev fd)) = Some (CallSql q) ->
        sql_raises w q = None ->
        In (CallRedirect "/dashboard/invoices") (trace (createInvoice w prev fd)))
  /\ (forall id' prev fd q,
        head (trace (updateInvoice w id' prev fd)) = Some (CallSql q) ->
        sql_raises w q = None ->
        In (CallRedirect "/dashboard/invoices") (trace (updateInvoice w id' prev fd))).
Proof.
  rewrite deleteInvoice_run. cbv zeta.
  split; [|split; [|split; [|split]]].
  - destruct (sql_raises w _); cbn [trace fst];
      intros ev Hin; repeat destruct Hin as [<-|Hin]; try reflexivity; destruct Hin.
  - destruct (sql_raises w _); cbn [settled snd]; intros url; discriminate.
  - intros ->. reflexivity.
  - intros prev fd q Hq Hok.
    destruct (createInvoice_first_call w prev fd q Hq) as (data & Hv & ->).
    rewrite createInvoice_run, Hv. unfold write_then_leave. rewrite Hok.
    cbn. auto.
  - intros id' prev fd q Hq Hok.
    destruct (updateInvoice_first_call w id' prev fd q Hq) as (data & Hv & ->).
    rewrite updateInvoice_run, Hv. unfold write_then_leave. rewrite Hok.
    cbn. auto.
Qed.

Lemma deleteInvoice_never_redirects_witness :
  trace (deleteInvoice Sample.store_accepts "inv-1")
  = [CallSql (DELETE_FROM_invoices (VString "inv-1"));
     CallRevalidatePath "/dashboard/invoices"]
  /\ In (CallRedirect "/dashboard/invoices")
        (trace (createInvoice Sample.store_accepts Sample.blank
                  (Sample.invoice "12" "paid"))).
Proof.
  split.
  - apply (proj1 (proj2 (proj2 (deleteInvoice_never_redirects
                                  Sample.store_accepts "inv-1")))).
    reflexivity.
  - refine (proj1 (proj2 (proj2 (proj2 (deleteInvoice_never_redirects
                                  Sample.store_accepts "inv-1"))))
              Sample.blank (Sample.invoice "12" "paid") _ _ _).
    + vm_compute. reflexivity.
    + reflexivity.
Defined.

(** C9. On every valid form the first call of [createInvoice] is the
    insert of a row whose date is the calendar day [YYYY-MM-DD] (UTC) of
    the server clock, whatever the store answers, and whose customerId,
    amount in cents and status are those of the form fields of these
    names. Every row that [createInvoice] inserts is that one. The date
    is made of the year, the month (1 to 12) and the day of the month (1
    to the length of the month) of the clock, which read back give the
    clock's day [now / 86400000]; for years 0 to 9999 it has ten
    characters. Two submissions that agree on the three fields validate
    alike and run alike; in particular an [id] or [date] entry, wherever
    it is in the form, changes nothing. *)
Theorem createInvoice_date_is_server_day w prev fd :
  (forall c s,
     FormData.get "customerId" fd = VString c ->
     Number.ltb Number.zero (ToNumber (FormData.get "amount" fd)) = true ->
     FormData.get "status" fd = VString s ->
     s = "pending" \/ s = "paid" ->
     head (trace (createInvoice w prev fd))
     = Some (CallSql
               (INSERT_INTO_invoices
                  (VString c)
                  (VNumber (Number.mul (Number.of_Z 100)
                              (ToNumber (FormData.get "amount" fd))))
                  (VString s)
                  (VString (Date.DateString (now w))))))
  /\ (forall c a s d,
     In (CallSql (INSERT_INTO_invoices c a s d)) (trace (createInvoice w prev fd)) ->
     d = VString (Date.DateString (now w))
     /\ c = FormData.get "customerId" fd
     /\ a = VNumber (Number.mul (Number.of_Z 100) (ToNumber (FormData.get "amount" fd)))
     /\ s = FormData.get "status" fd)
  /\ (let y := Date.YearFromTime (now w) in
      let m := Date.MonthFromTime (now w) in
      let day := Date.DateFromTime (now w) in
      Date.DateString (now w)
      = Date.YearString y +:+ "-" +:+ Date.pad 2 (m + 1) +:+ "-" +:+ Date.pad 2 day
      /\ 1 <= m + 1 <= 12
      /\ 1 <= day <= Date.DaysInMonth (Date.LeapDays y) m
      /\ Date.DayOfDate y m day = now w / 86400000)
  /\ (0 <= Date.YearFromTime (now w) <= 9999 ->
      String.length (Date.DateString (now w)) = 10%nat)
  /\ (forall fd',
        FormData.get "customerId" fd' = FormData.get "customerId" fd ->
        FormData.get "amount" fd' = FormData.get "amount" fd ->
        FormData.get "status" fd' = FormData.get "status" fd ->
        validate fd' = validate fd
        /\ createInvoice w prev fd' = createInvoice w prev fd)
  /\ (forall (fd1 fd2 : FormData.t) k e,
        fd = (fd1 ++ fd2)%list -> k = "id" \/ k = "date" ->
        validate (fd1 ++ (k, e) :: fd2)%list = validate fd
        /\ createInvoice w prev (fd1 ++ (k, e) :: fd2)%list = createInvoice w prev fd).
Proof.
  split; [|split; [|split; [|split; [|split]]]].
  - intros c s Hc Ha Hs Hps.
    assert (Hv : validate fd
                 = Zod.Success
                     [("customerId", VString c);
                      ("amount", VNumber (ToNumber (FormData.get "amount" fd)));
                      ("status", VString s)]).
    { rewrite validate_checks, check_customerId_spec, check_status_spec,
        check_amount_spec, Hc, Hs. cbv zeta.
      destruct (ltb_zero_not_leb _ Ha) as [-> ->].
      destruct Hps as [-> | ->]; reflexivity. }
    rewrite createInvoice_run, Hv, head_write_then_leave.
    now rewrite insert_statement_fields.
  - intros c a s d. rewrite createInvoice_run.
    destruct (validate fd) as [data|error] eqn:Hv; [|intros []].
    destruct (validate_success fd data Hv) as (c0 & s0 & Hc & Hs & _ & ->).
    rewrite insert_statement_fields, Hc, Hs. unfold write_then_leave.
    destruct (sql_raises w _); cbn [trace fst In]; intros H;
      repeat (destruct H as [H|H]); try discriminate H; try contradiction;
      injection H as <- <- <- <-; auto.
  - cbv zeta.
    destruct (calendar_round_trip (now w)) as (Hm & Hd & Hr). cbv zeta in *.
    split; [reflexivity|]. split; [lia|]. split; [exact Hd|exact Hr].
  - apply DateString_length.
  - intros fd'. apply createInvoice_reads_three_fields.
  - intros fd1 fd2 k e -> Hk.
    apply createInvoice_reads_three_fields; apply get_skip;
      destruct Hk as [->| ->]; discriminate.
Qed.

Lemma createInvoice_date_is_server_day_witness :
  head (trace (createInvoice Sample.store_rejects Sample.blank
                 (("id", FormData.EntryString "inv-9")
                  :: ("date", FormData.EntryString "1999-01-01")
                  :: Sample.invoice "12" "paid")))
  = Some (CallSql (INSERT_INTO_invoices (VString "cust-1")
                     (VNumber (Number.of_Z 1200)) (VString "paid")
                     (VString "2023-11-14")))
  /\ Date.DayOfDate 2023 10 14 = 1700000000000 / 86400000
  /\ String.length (Date.DateString (now Sample.store_accepts)) = 10%nat
  /\ createInvoice Sample.store_accepts Sample.blank
       (("id", FormData.EntryString "inv-9")
        :: ("date", FormData.EntryString "1999-01-01")
        :: Sample.invoice "12" "paid")
     = createInvoice Sample.store_accepts Sample.blank
         (("date", FormData.EntryString "1999-01-01") :: Sample.invoice "12" "paid").
Proof.
  split; [|split; [|split]].
  - apply (proj1 (createInvoice_date_is_server_day
                    Sample.store_rejects Sample.blank
                    (("id", FormData.EntryString "inv-9")
                     :: ("date", FormData.EntryString "1999-01-01")
                     :: Sample.invoice "12" "paid"))
             "cust-1" "paid").
    + reflexivity.
    + vm_compute. reflexivity.
    + reflexivity.
    + right. reflexivity.
  - exact (proj2 (proj2 (proj2 (proj1 (proj2 (proj2
             (createInvoice_date_is_server_day
                Sample.store_accepts Sample.blank
                (Sample.invoice "12" "paid")))))))).
  - apply (proj1 (proj2 (proj2 (proj2 (createInvoice_date_is_server_day
                           Sample.store_accepts Sample.blank
                           (Sample.invoice "12" "paid")))))).
    vm_compute. split; discriminate.
  - refine (proj2 (proj2 (proj2 (proj2 (proj2 (proj2
              (createInvoice_date_is_server_day
                 Sample.store_accepts Sample.blank
                 (("date", FormData.EntryString "1999-01-01")
                  :: Sample.invoice "12" "paid"))))))
              [] _ "id" (FormData.EntryString "inv-9") _ _)).
    + reflexivity.
    + left. reflexivity.
Defined.

(** C10. When the form has no amount entry, the missing value coerces to
    the number 0, the amount field is reported with
    [Please enter an amount greater than $0.] and nothing else, and the
    summary is [Missing Fields. Failed to Create Invoice.] (resp. Update).
    The summary of a failed validation is that same text also when all
    three fields are present. *)
Theorem absent_amount_counts_as_zero w id prev fd :
  FormData.has "amount" fd = false ->
  FormData.get "amount" fd = VNull
  /\ ToNumber (FormData.get "amount" fd) = Number.zero
  /\ field_errors (createInvoice w prev fd) "amount"
     = Some ["Please enter an amount greater than $0."]
  /\ field_errors (updateInvoice w id prev fd) "amount"
     = Some ["Please enter an amount greater than $0."]
  /\ summary (createInvoice w prev fd)
     = Some "Missing Fields. Failed to Create Invoice."
  /\ summary (updateInvoice w id prev fd)
     = Some "Missing Fields. Failed to Update Invoice."
  /\ forall fd' error,
       FormData.has "customerId" fd' = true ->
       FormData.has "amount" fd' = true ->
       FormData.has "status" fd' = true ->
       validate fd' = Zod.Failure error ->
       summary (createInvoice w prev fd')
       = Some "Missing Fields. Failed to Create Invoice."
       /\ summary (updateInvoice w id prev fd')
          = Some "Missing Fields. Failed to Update Invoice.".
Proof.
  intros Habsent. apply get_null_iff in Habsent as Hnull.
  assert (Hz : ToNumber (FormData.get "amount" fd) = Number.zero)
    by now rewrite Hnull.
  assert (Hle : Number.leb (ToNumber (FormData.get "amount" fd)) Number.zero = true)
    by now rewrite Hz.
  destruct (amount_errors_of_rejection fd _ (rejected_amount fd Hle))
    as (error & He & Hm).
  split; [exact Hnull|]. split; [exact Hz|].
  rewrite (summary_create_failure w prev fd error He),
    (summary_update_failure w id prev fd error He).
  rewrite createInvoice_run, updateInvoice_run, He.
  rewrite !field_errors_validation_error, Hm.
  repeat (split; [reflexivity|]).
  intros fd' error' _ _ _ He'. split.
  - exact (summary_create_failure w prev fd' error' He').
  - exact (summary_update_failure w id prev fd' error' He').
Qed.

Lemma absent_amount_counts_as_zero_witness :
  FormData.has "amount" Sample.without_amount = false
  /\ ToNumber (FormData.get "amount" Sample.without_amount) = Number.zero
  /\ field_errors
       (createInvoice Sample.store_accepts Sample.blank Sample.without_amount)
       "amount"
     = Some ["Please enter an amount greater than $0."]
  /\ summary (createInvoice Sample.store_accepts Sample.blank Sample.without_amount)
     = Some "Missing Fields. Failed to Create Invoice.".
Proof.
  destruct (absent_amount_counts_as_zero
              Sample.store_accepts "inv-1" Sample.blank Sample.without_amount
              ltac:(reflexivity)) as (_ & Hz & Hc & _ & Hs & _).
  exact (conj eq_refl (conj Hz (conj Hc Hs))).
Defined.

(** * Further properties of the actions *)

(** ** Exact arithmetic on whole numbers *)

Lemma iter_pos_nat {A} (f : A -> A) (p : positive) : forall x,
  SpecFloat.iter_pos f p x = Nat.iter (Pos.to_nat p) f x.
Proof.
  induction p as [p IH|p IH|]; intros x; cbn [SpecFloat.iter_pos].
  - rewrite !IH, Pos2Nat.inj_xI.
    replace (S (2 * Pos.to_nat p))%nat
      with (Pos.to_nat p + S (Pos.to_nat p))%nat by lia.
    now rewrite Nat.iter_add, Nat.iter_succ_r.
  - rewrite !IH, Pos2Nat.inj_xO.
    replace (2 * Pos.to_nat p)%nat
      with (Pos.to_nat p + Pos.to_nat p)%nat by lia.
    now rewrite Nat.iter_add.
  - reflexivity.
Qed.

Lemma shr_1_exact (q : positive) (k : nat) :
  Nat.iter k shr_1 {| shr_m := Zpos q * 2 ^ Z.of_nat k; shr_r := false; shr_s := false |}
  = {| shr_m := Zpos q; shr_r := false; shr_s := false |}.
Proof.
  revert q. induction k as [|k IH]; intros q.
  - cbn [Nat.iter]. now rewrite Z.mul_1_r.
  - rewrite Nat.iter_succ_r.
    replace (Zpos q * 2 ^ Z.of_nat (S k)) with (Zpos (xO (q * Z.to_pos (2 ^ Z.of_nat k)))).
    + cbn [shr_1 orb].
      replace (Zpos (q * Z.to_pos (2 ^ Z.of_nat k))) with (Zpos q * 2 ^ Z.of_nat k).
      * apply IH.
      * rewrite Pos2Z.inj_mul, Z2Pos.id; [reflexivity|]. apply Z.pow_pos_nonneg; lia.
    + rewrite Pos2Z.inj_xO, Pos2Z.inj_mul, Z2Pos.id by (apply Z.pow_pos_nonneg; lia).
      rewrite Nat2Z.inj_succ, Z.pow_succ_r by lia. ring.
Qed.

Lemma digits2_size p : digits2_pos p = Pos.size p.
Proof. induction p; cbn [digits2_pos Pos.size]; congruence. Qed.

Lemma Zdigits2_shift (N : positive) (j : Z) :
  0 <= j -> Zdigits2 (Zpos N * 2 ^ j) = Zpos (Pos.size N) + j.
Proof.
  intros Hj. pattern j. apply natlike_ind; [| |exact Hj].
  - rewrite Z.mul_1_r, Z.add_0_r. cbn [Zdigits2]. now rewrite digits2_size.
  - intros x Hx IH. rewrite Z.pow_succ_r by assumption.
    assert (0 < 2 ^ x) by (apply Z.pow_pos_nonneg; lia).
    destruct (Zpos N * 2 ^ x) as [|q|q] eqn:E; try lia.
    replace (Zpos N * (2 * 2 ^ x)) with (Zpos (xO q)) by lia.
    cbn [Zdigits2 digits2_pos] in *. lia.
Qed.

Lemma shr_exact (q : positive) (e n : Z) :
  0 <= n ->
  shr {| shr_m := Zpos q * 2 ^ n; shr_r := false; shr_s := false |} e n
  = ({| shr_m := Zpos q; shr_r := false; shr_s := false |}, e + n).
Proof.
  intros Hn. unfold shr. destruct n as [|p|p]; [| |lia].
  - now rewrite Z.mul_1_r, Z.add_0_r.
  - rewrite iter_pos_nat. rewrite <- (positive_nat_Z p) at 1.
    now rewrite shr_1_exact.
Qed.

Lemma fexp_small d :
  1 <= d -> fexp Number.prec Number.emax d = d - 53.
Proof. intros H. unfold fexp, emin, Number.prec, Number.emax. lia. Qed.

(** Rounding an integer that fits in 53 bits changes nothing. *)
Lemma round_exact s (N : positive) (j : Z) :
  Zpos (Pos.size N) <= 53 ->
  53 - Zpos (Pos.size N) <= j ->
  binary_round_aux Number.prec Number.emax s (Zpos N * 2 ^ j) (- j) loc_Exact
  = S754_finite s (Z.to_pos (Zpos N * 2 ^ (53 - Zpos (Pos.size N))))
      (Zpos (Pos.size N) - 53).
Proof.
  set (D := Zpos (Pos.size N)). intros HD Hj.
  assert (H1 : 1 <= D) by (unfold D; lia).
  set (q := Z.to_pos (Zpos N * 2 ^ (53 - D))).
  assert (Hq : Zpos q = Zpos N * 2 ^ (53 - D)).
  { unfold q. rewrite Z2Pos.id; [reflexivity|].
    apply Z.mul_pos_pos; [lia|apply Z.pow_pos_nonneg; lia]. }
  assert (HM : Zpos N * 2 ^ j = Zpos q * 2 ^ (D - 53 + j)).
  { rewrite Hq, <- Z.mul_assoc, <- Z.pow_add_r by lia. do 2 f_equal. lia. }
  assert (Hdq : Zdigits2 (Zpos q) = 53).
  { rewrite Hq, Zdigits2_shift by lia. fold D. lia. }
  unfold binary_round_aux, shr_fexp.
  rewrite Zdigits2_shift by lia. fold D.
  replace (D + j + - j) with D by lia. rewrite fexp_small by assumption.
  replace (D - 53 - - j) with (D - 53 + j) by lia.
  rewrite HM. cbn [shr_record_of_loc]. rewrite shr_exact by lia.
  cbn [shr_m loc_of_shr_record round_nearest_even].
  rewrite Hdq. replace (53 + (- j + (D - 53 + j))) with D by lia.
  rewrite fexp_small by assumption.
  replace (D - 53 - (- j + (D - 53 + j))) with 0 by lia.
  cbn [shr_record_of_loc shr shr_m].
  replace (- j + (D - 53 + j)) with (D - 53) by lia.
  destruct (Z.leb_spec (D - 53) (Number.emax - Number.prec)) as [_|H];
    [reflexivity|unfold Number.emax, Number.prec in H; lia].
Qed.

Lemma iter_xO_pow (N d : positive) :
  Zpos (Pos.iter xO N d) = Zpos N * 2 ^ Zpos d.
Proof.
  induction d as [|d IH] using Pos.peano_ind.
  - cbn [Pos.iter]. lia.
  - rewrite Pos.iter_succ, Pos2Z.inj_xO, IH, Pos2Z.inj_succ, Z.pow_succ_r by lia.
    ring.
Qed.

Lemma of_Z_exact (N : positive) :
  Zpos (Pos.size N) <= 53 ->
  Number.of_Z (Zpos N)
  = S754_finite false (Z.to_pos (Zpos N * 2 ^ (53 - Zpos (Pos.size N))))
      (Zpos (Pos.size N) - 53).
Proof.
  intros HD. unfold Number.of_Z, binary_normalize, binary_round, shl_align.
  rewrite digits2_size, Z.add_0_r, fexp_small by lia.
  destruct (Zpos (Pos.size N) - 53 - 0) as [|d|d] eqn:E; [| lia |].
  - pose proof (round_exact false N 0 HD ltac:(lia)) as H.
    rewrite Z.mul_1_r in H. exact H.
  - pose proof (round_exact false N (Zpos d) HD ltac:(lia)) as H.
    rewrite iter_xO_pow.
    replace (Zpos (Pos.size N) - 53) with (- Zpos d) at 1 by lia. exact H.
Qed.

Lemma size_bound (N : positive) : Zpos N < 2 ^ 53 -> Zpos (Pos.size N) <= 53.
Proof.
  intros H. pose proof (Pos.size_le N) as Hle.
  destruct (Z.le_gt_cases (Zpos (Pos.size N)) 53) as [|Hgt]; [assumption|exfalso].
  assert (2 ^ 54 <= 2 ^ Zpos (Pos.size N)) by (apply Z.pow_le_mono_r; lia).
  assert (Zpos (2 ^ Pos.size N) <= Zpos N~0) by exact Hle.
  rewrite Pos2Z.inj_pow in *. lia.
Qed.

(** The product of two integers is exact as long as it fits in 53 bits. *)
Lemma mul_of_Z_exact (a b : positive) :
  Zpos (a * b) < 2 ^ 53 ->
  Number.mul (Number.of_Z (Zpos a)) (Number.of_Z (Zpos b))
  = Number.of_Z (Zpos (a * b)).
Proof.
  intros Hab.
  assert (Ha : Zpos a < 2 ^ 53) by nia.
  assert (Hb : Zpos b < 2 ^ 53) by nia.
  pose proof (size_bound _ Ha) as Da. pose proof (size_bound _ Hb) as Db.
  pose proof (size_bound _ Hab) as Dab.
  rewrite (of_Z_exact a Da), (of_Z_exact b Db), (of_Z_exact (a * b) Dab).
  unfold Number.mul, SFmul. cbn [xorb].
  set (ka := 53 - Zpos (Pos.size a)). set (kb := 53 - Zpos (Pos.size b)).
  assert (0 < 2 ^ ka) by (apply Z.pow_pos_nonneg; unfold ka; lia).
  assert (0 < 2 ^ kb) by (apply Z.pow_pos_nonneg; unfold kb; lia).
  rewrite Pos2Z.inj_mul, !Z2Pos.id by nia.
  replace (Zpos a * 2 ^ ka * (Zpos b * 2 ^ kb))
    with (Zpos (a * b) * 2 ^ (ka + kb))
    by (rewrite Z.pow_add_r, Pos2Z.inj_mul by (unfold ka, kb; lia); ring).
  replace (Zpos (Pos.size a) - 53 + (Zpos (Pos.size b) - 53))
    with (- (ka + kb)) by (unfold ka, kb; lia).
  apply round_exact; [assumption|].
  (* digits of the product are at least digits a + digits b - 1 *)
  pose proof (Pos.size_gt (a * b)) as Hgt.
  pose proof (Pos.size_le a) as La. pose proof (Pos.size_le b) as Lb.
  assert (Hs : Zpos (Pos.size a) + Zpos (Pos.size b) - 1 <= Zpos (Pos.size (a * b))).
  { destruct (Z.le_gt_cases (Zpos (Pos.size a) + Zpos (Pos.size b) - 1)
                (Zpos (Pos.size (a * b)))) as [|Hlt]; [assumption|exfalso].
    assert (E1 : 2 ^ Zpos (Pos.size a) <= 2 * Zpos a)
      by (rewrite <- Pos2Z.inj_pow; exact La).
    assert (E2 : 2 ^ Zpos (Pos.size b) <= 2 * Zpos b)
      by (rewrite <- Pos2Z.inj_pow; exact Lb).
    assert (E3 : Zpos (a * b) < 2 ^ Zpos (Pos.size (a * b)))
      by (rewrite <- Pos2Z.inj_pow; exact Hgt).
    assert (E4 : 2 ^ Zpos (Pos.size (a * b)) <= 2 ^ (Zpos (Pos.size a) + Zpos (Pos.size b) - 2))
      by (apply Z.pow_le_mono_r; lia).
    assert (E5 : 4 * 2 ^ (Zpos (Pos.size a) + Zpos (Pos.size b) - 2)
                 = 2 ^ Zpos (Pos.size a) * 2 ^ Zpos (Pos.size b)).
    { rewrite <- Z.pow_add_r by lia. change 4 with (2 ^ 2).
      rewrite <- Z.pow_add_r by lia. f_equal. lia. }
    rewrite Pos2Z.inj_mul in E3. nia. }
  unfold ka, kb. lia.
Qed.
Lemma mul_comm x y : Number.mul x y = Number.mul y x.
Proof.
  unfold Number.mul, SFmul.
  destruct x as [sx|sx| |sx mx ex], y as [sy|sy| |sy my ey];
    try reflexivity; try (now rewrite xorb_comm).
  now rewrite xorb_comm, Pos.mul_comm, Z.add_comm.
Qed.

Lemma is_decimal_digit_cases c :
  JsString.is_decimal_digit c = true ->
  c = "0"%char \/ c = "1"%char \/ c = "2"%char \/ c = "3"%char \/ c = "4"%char
  \/ c = "5"%char \/ c = "6"%char \/ c = "7"%char \/ c = "8"%char \/ c = "9"%char.
Proof.
  destruct c as [[] [] [] [] [] [] [] []]; vm_compute; intros H;
    try discriminate H; tauto.
Qed.

Ltac by_digit c H :=
  destruct (is_decimal_digit_cases c H)
    as [->|[->|[->|[->|[->|[->|[->|[->|[->| ->]]]]]]]]].

Lemma digit_not_space c :
  JsString.is_decimal_digit c = true -> JsString.isStrWhiteSpaceChar c = false.
Proof. intros H. by_digit c H; reflexivity. Qed.

Lemma digit_value_decimal c :
  JsString.is_decimal_digit c = true ->
  JsString.digit_value c = Some (Z.of_N (N_of_ascii c) - 48)
  /\ 0 <= Z.of_N (N_of_ascii c) - 48 < 10.
Proof. intros H. by_digit c H; vm_compute; intuition discriminate. Qed.

Lemma trimStart_digits s :
  JsString.all_decimal_digits s = true -> JsString.trimStart s = s.
Proof.
  destruct s as [|c s]; [reflexivity|]. cbn [JsString.all_decimal_digits JsString.trimStart].
  intros H. apply andb_true_iff in H as [Hc _]. now rewrite digit_not_space.
Qed.

Lemma trimEnd_digits s :
  JsString.all_decimal_digits s = true -> JsString.trimEnd s = s.
Proof.
  induction s as [|c s IH]; [reflexivity|].
  cbn [JsString.all_decimal_digits JsString.trimEnd]. intros H.
  apply andb_true_iff in H as [Hc Hs]. rewrite (IH Hs), (digit_not_space c Hc).
  now destruct s.
Qed.

Lemma digits_decimal s : forall acc n,
  JsString.all_decimal_digits s = true ->
  JsString.digits 10 s acc n
  = (JsString.decimal_value acc s, n + Z.of_nat (String.length s), "").
Proof.
  induction s as [|c s IH]; intros acc n H.
  - cbn. now rewrite Z.add_0_r.
  - cbn [JsString.all_decimal_digits] in H. apply andb_true_iff in H as [Hc Hs].
    destruct (digit_value_decimal c Hc) as [Hv Hr].
    cbn [JsString.digits JsString.decimal_value String.length]. rewrite Hv.
    destruct (Z.ltb_spec (Z.of_N (N_of_ascii c) - 48) 10); [|lia].
    rewrite (IH _ _ Hs).
    replace (acc * 10 + (Z.of_N (N_of_ascii c) - 48))
      with (acc * 10 + Z.of_N (N_of_ascii c) - 48) by lia.
    replace (n + 1 + Z.of_nat (String.length s))
      with (n + Z.of_nat (S (String.length s))) by lia.
    reflexivity.
Qed.

Lemma decimal_value_nonneg s : forall acc,
  JsString.all_decimal_digits s = true -> 0 <= acc ->
  0 <= JsString.decimal_value acc s.
Proof.
  induction s as [|c s IH]; intros acc H Hacc; [exact Hacc|].
  cbn [JsString.all_decimal_digits] in H. apply andb_true_iff in H as [Hc Hs].
  destruct (digit_value_decimal c Hc) as [_ Hr].
  cbn [JsString.decimal_value]. apply IH; [assumption|lia].
Qed.

Lemma of_decimal_integer v :
  0 <= v -> Number.of_decimal false v 0 = Number.of_Z v.
Proof.
  intros H. destruct v as [|p|p]; [reflexivity| |lia].
  unfold Number.of_decimal, Number.of_Z, binary_normalize.
  change (0 <=? 0) with true. cbv iota.
  change (Z.to_pos (10 ^ 0)) with 1%positive. now rewrite Pos.mul_1_r.
Qed.

Lemma StrUnsignedDecimalLiteral_digits s :
  JsString.all_decimal_digits s = true -> s <> "" ->
  JsString.StrUnsignedDecimalLiteral false s
  = Number.of_Z (JsString.decimal_value 0 s).
Proof.
  intros H Hne. unfold JsString.StrUnsignedDecimalLiteral.
  assert (HI : String.eqb s "Infinity" = false).
  { destruct s as [|c s]; [reflexivity|].
    cbn [JsString.all_decimal_digits] in H. apply andb_true_iff in H as [Hc _].
    by_digit c Hc; reflexivity. }
  rewrite HI, (digits_decimal s 0 0 H).
  destruct (Z.eqb_spec (0 + Z.of_nat (String.length s) + 0) 0) as [E|_].
  { destruct s; [now destruct Hne|cbn [String.length] in E; lia]. }
  cbn [JsString.ExponentPart].
  replace (0 - 0) with 0 by lia.
  apply of_decimal_integer, decimal_value_nonneg; [assumption|lia].
Qed.

Lemma StringToNumber_digits s :
  JsString.all_decimal_digits s = true -> s <> "" ->
  JsString.StringToNumber s = Number.of_Z (JsString.decimal_value 0 s).
Proof.
  intros H Hne. unfold JsString.StringToNumber, JsString.trim.
  rewrite (trimStart_digits s H), (trimEnd_digits s H).
  rewrite <- (StrUnsignedDecimalLiteral_digits s H Hne).
  destruct s as [|c1 s]; [now destruct Hne|].
  cbn [JsString.all_decimal_digits] in H. apply andb_true_iff in H as [H1 Hs].
  by_digit c1 H1; try reflexivity.
  destruct s as [|c2 s]; [reflexivity|].
  cbn [JsString.all_decimal_digits] in Hs. apply andb_true_iff in Hs as [H2 _].
  by_digit c2 H2; reflexivity.
Qed.

Lemma of_Z_positive (N : positive) :
  Zpos N < 2 ^ 53 -> Number.ltb Number.zero (Number.of_Z (Zpos N)) = true.
Proof. intros H. now rewrite (of_Z_exact N (size_bound N H)). Qed.

Lemma of_Z_is_Z (N : positive) :
  Zpos N < 2 ^ 53 -> Number.is_Z (Number.of_Z (Zpos N)) (Zpos N) = true.
Proof.
  intros H. pose proof (size_bound N H) as HD.
  rewrite (of_Z_exact N HD). unfold Number.is_Z, Number.to_Q.
  set (k := 53 - Zpos (Pos.size N)).
  assert (Hk : 0 <= k) by (unfold k; lia).
  assert (Hp : 0 < 2 ^ k) by (apply Z.pow_pos_nonneg; lia).
  replace (Zpos (Pos.size N) - 53) with (- k) by (unfold k; lia).
  apply Qeq_bool_iff.
  destruct (Z.leb_spec 0 (- k)) as [H0|H0].
  - assert (k = 0) as -> by lia. cbn [Z.opp]. 
    rewrite Z.pow_0_r, Z.mul_1_r, Z2Pos.id, Z.mul_1_r by lia. reflexivity.
  - unfold Qeq. cbn [Qnum Qden inject_Z]. rewrite Z.opp_involutive.
    rewrite !Z2Pos.id by nia. ring.
Qed.

Lemma validate_success_iff fd data :
  validate fd = Zod.Success data <->
  exists c s,
    FormData.get "customerId" fd = VString c
    /\ Number.ltb Number.zero (ToNumber (FormData.get "amount" fd)) = true
    /\ FormData.get "status" fd = VString s
    /\ (s = "pending" \/ s = "paid")
    /\ data = [("customerId", VString c);
               ("amount", VNumber (ToNumber (FormData.get "amount" fd)));
               ("status", VString s)].
Proof.
  rewrite validate_checks, check_customerId_spec, check_status_spec, check_amount_spec.
  cbv zeta. split.
  - destruct (FormData.get "customerId" fd) as [| |c| |];
      destruct (Number.isNaN _) eqn:Hn;
      try destruct (Number.leb _ _) eqn:Hl;
      destruct (FormData.get "status" fd) as [| |s| |];
      try destruct (String.eqb_spec s "pending");
      try destruct (String.eqb_spec s "paid");
      cbn [orb]; try discriminate; intros [= <-]; exists c, s;
      (destruct (not_NaN_sign _ Hn) as [Hle|Hlt]; [congruence|]); auto 10.
  - intros (c & s & -> & Hlt & -> & Hs & ->).
    destruct (ltb_zero_not_leb _ Hlt) as [-> ->].
    destruct Hs as [-> | ->]; reflexivity.
Qed.

(** ** Runs, fields and calls *)

(** The returned map, key by key: one message for a rejected field,
    no entry for any other key. *)
Lemma errors_follow_fields fd error key :
  validate fd = Zod.Failure error ->
  Zod.flatten_fieldErrors error !! key =
  match field_result CreateInvoice (submitted fd) key with
  | Some (Zod.INVALID issues) => Some (map Zod.message issues)
  | _ => None
  end.
Proof.
  intros He. rewrite field_result_cases, (field_errors_of_failure fd error key He).
  destruct (check_customerId_verdict fd) as [vc|cc mc];
  destruct (check_amount_verdict fd) as [va|ca ma];
  destruct (check_status_verdict fd) as [vs|cs ms];
  cbn [Zod.issues_of app]; rewrite ?messages_at_cons, ?messages_at_nil;
  repeat match goal with
  | |- context [String.eqb ?k key] =>
      destruct (String.eqb_spec k key) as [<-|?]
  end; try discriminate; reflexivity.
Qed.

Lemma create_update_same_errors w id prev fd key :
  field_errors (updateInvoice w id prev fd) key
  = field_errors (createInvoice w prev fd) key.
Proof.
  rewrite createInvoice_run, updateInvoice_run.
  destruct (validate fd); [|reflexivity].
  now rewrite !field_errors_write_then_leave.
Qed.

Lemma field_errors_create w prev fd key :
  field_errors (createInvoice w prev fd) key =
  match validate fd with
  | Zod.Failure error => Zod.flatten_fieldErrors error !! key
  | Zod.Success _ => None
  end.
Proof.
  rewrite createInvoice_run. destruct (validate fd); [|reflexivity].
  apply field_errors_write_then_leave.
Qed.

Lemma validate_failure_of_offending fd key :
  offending fd key -> exists error, validate fd = Zod.Failure error.
Proof.
  intros H. apply offending_cases in H. rewrite validate_checks.
  destruct H as [[_ [i H]]|[[_ [i H]]|[_ [i H]]]]; rewrite H;
    destruct (check_customerId fd), (check_amount fd), (check_status fd);
    eauto; discriminate.
Qed.

(** X5. Whenever [createInvoice] reports messages under a key, that key is
    customerId, amount or status, the field is offending, the list has
    exactly one message, [updateInvoice] reports the same list, and
    nothing was sent to the store. *)
Theorem field_errors_shape w id prev fd key msgs :
  field_errors (createInvoice w prev fd) key = Some msgs ->
  (key = "customerId" \/ key = "amount" \/ key = "status")
  /\ offending fd key
  /\ (exists m, msgs = [m])
  /\ field_errors (updateInvoice w id prev fd) key = Some msgs
  /\ trace (createInvoice w prev fd) = [].
Proof.
  intros H. rewrite create_update_same_errors, H.
  rewrite field_errors_create in H.
  rewrite createInvoice_run.
  destruct (validate fd) as [data|error] eqn:He; [discriminate|].
  rewrite (errors_follow_fields fd error key He) in H.
  assert (Hoff : offending fd key).
  { unfold offending.
    destruct (field_result CreateInvoice (submitted fd) key) as [[v|i]|];
      try discriminate. eauto. }
  split; [|split; [exact Hoff|split; [|split; reflexivity]]].
  - apply offending_cases in Hoff. tauto.
  - apply offending_cases in Hoff.
    destruct Hoff as [[-> _]|[[-> _]|[-> _]]].
    + rewrite field_result_customerId in H.
      destruct (check_customerId_verdict fd); [discriminate|].
      injection H as <-. eauto.
    + rewrite field_result_amount in H.
      destruct (check_amount_verdict fd); [discriminate|].
      injection H as <-. eauto.
    + rewrite field_result_status in H.
      destruct (check_status_verdict fd); [discriminate|].
      injection H as <-. eauto.
Qed.

Lemma field_errors_shape_witness :
  offending (Sample.invoice "0" "paid") "amount"
  /\ field_errors
       (updateInvoice Sample.store_accepts "inv-1" Sample.blank
          (Sample.invoice "0" "paid")) "amount"
     = Some ["Please enter an amount greater than $0."].
Proof.
  destruct (field_errors_shape
              Sample.store_accepts "inv-1" Sample.blank (Sample.invoice "0" "paid")
              "amount" ["Please enter an amount greater than $0."]
              ltac:(vm_compute; reflexivity)) as (_ & Hoff & _ & Hup & _).
  exact (conj Hoff Hup).
Defined.

(** X1. When the update issued by [updateInvoice] raises an error, whatever
    it is, [updateInvoice] returns the state whose message is
    [Database Error: Failed to Update Invoice.]; the error does not
    propagate, and neither [revalidatePath] nor [redirect] is called. *)
Theorem updateInvoice_store_failure w id prev fd q e :
  head (trace (updateInvoice w id prev fd)) = Some (CallSql q) ->
  sql_raises w q = Some e ->
  updateInvoice w id prev fd =
    ([CallSql q],
     Fulfilled (Some {| errors := None;
                        message := Some "Database Error: Failed to Update Invoice." |}))
  /\ (forall ev, In ev (trace (updateInvoice w id prev fd)) ->
        is_revalidate ev = false /\ is_redirect ev = false)
  /\ forall e', settled (updateInvoice w id prev fd) <> Rejected e'.
Proof.
  intros Hq He.
  destruct (updateInvoice_first_call w id prev fd q Hq) as (data & Hv & ->).
  assert (Hrun : updateInvoice w id prev fd =
    ([CallSql (update_statement id data)],
     Fulfilled (Some {| errors := None;
                        message := Some "Database Error: Failed to Update Invoice." |}))).
  { rewrite updateInvoice_run, Hv. unfold write_then_leave. now rewrite He. }
  rewrite Hrun. split; [reflexivity|]. split.
  - intros ev [<-|[]]. split; reflexivity.
  - intros e'. discriminate.
Qed.

Lemma updateInvoice_store_failure_witness :
  let q := UPDATE_invoices (VString "cust-1") (VNumber (Number.of_Z 1200))
             (VString "paid") (VString "inv-1") in
  updateInvoice Sample.store_rejects "inv-1" Sample.blank (Sample.invoice "12" "paid")
  = ([CallSql q],
     Fulfilled (Some {| errors := None;
                        message := Some "Database Error: Failed to Update Invoice." |})).
Proof.
  intros q.
  apply (proj1 (updateInvoice_store_failure
                  Sample.store_rejects "inv-1" Sample.blank
                  (Sample.invoice "12" "paid")
                  q (OtherError "foreign key violation")
                  ltac:(vm_compute; reflexivity) ltac:(reflexivity))).
Defined.

(** X2. [createInvoice] and [updateInvoice] send a statement to the store
    exactly when the submitted customerId is a string, the amount coerces
    to a number greater than 0 and the status is [pending] or [paid]. *)
Theorem store_reached_iff_form_valid w id prev fd :
  let valid :=
    (exists c, FormData.get "customerId" fd = VString c)
    /\ Number.ltb Number.zero (ToNumber (FormData.get "amount" fd)) = true
    /\ (FormData.get "status" fd = VString "pending"
        \/ FormData.get "status" fd = VString "paid") in
  ((exists q, In (CallSql q) (trace (createInvoice w prev fd))) <-> valid)
  /\ ((exists q, In (CallSql q) (trace (updateInvoice w id prev fd))) <-> valid)
  /\ ((exists data, validate fd = Zod.Success data) <-> valid).
Proof.
  intros valid.
  assert (Hv : (exists data, validate fd = Zod.Success data) <-> valid).
  { unfold valid. split.
    - intros [data H]. apply validate_success_iff in H
        as (c & s & Hc & Ha & Hs & Hps & _).
      split; [eauto|]. split; [exact Ha|]. destruct Hps as [-> | ->]; auto.
    - intros [[c Hc] [Ha Hs]].
      destruct Hs as [Hs|Hs]; eexists; apply validate_success_iff;
        exists c; eexists; repeat split; eauto. }
  split; [|split; [|exact Hv]]; rewrite <- Hv.
  - rewrite createInvoice_run. destruct (validate fd) as [data|error].
    + split; [eauto|]. intros _. exists (insert_statement w data).
      unfold write_then_leave. destruct (sql_raises w _); cbn; auto.
    + split; [intros [q []]|intros [data H]; discriminate].
  - rewrite updateInvoice_run. destruct (validate fd) as [data|error].
    + split; [eauto|]. intros _. exists (update_statement id data).
      unfold write_then_leave. destruct (sql_raises w _); cbn; auto.
    + split; [intros [q []]|intros [data H]; discriminate].
Qed.

Lemma store_reached_iff_form_valid_witness :
  exists q,
    In (CallSql q)
       (trace (createInvoice Sample.store_rejects Sample.blank
                 (Sample.invoice "12" "paid"))).
Proof.
  apply (proj2 (proj1 (store_reached_iff_form_valid
                  Sample.store_rejects "inv-1" Sample.blank
                  (Sample.invoice "12" "paid")))).
  split; [exists "cust-1"; reflexivity|].
  split; [vm_compute; reflexivity|right; reflexivity].
Defined.

Lemma amount_errors_of_issue fd c m :
  check_amount fd = Zod.INVALID [Zod.issue c "amount" m] ->
  exists error, validate fd = Zod.Failure error /\
                Zod.flatten_fieldErrors error !! "amount" = Some [m].
Proof.
  intros Ha.
  assert (exists error, validate fd = Zod.Failure error) as [error He].
  { rewrite validate_checks, Ha.
    destruct (check_customerId fd), (check_status fd); eauto. }
  exists error. split; [exact He|].
  rewrite (errors_follow_fields fd error "amount" He), field_result_amount, Ha.
  reflexivity.
Qed.

(** X3. The amount field is accepted exactly when the submitted value coerces
    to a number greater than 0. A value that coerces to NaN (a word, a
    file) is reported as [Expected number, received nan], not with the
    amount-specific message. *)
Theorem amount_accepted_iff_positive w id prev fd :
  let a := ToNumber (FormData.get "amount" fd) in
  (~ offending fd "amount" <-> Number.ltb Number.zero a = true)
  /\ (Number.isNaN a = true ->
        field_errors (createInvoice w prev fd) "amount"
        = Some ["Expected number, received nan"]
        /\ field_errors (updateInvoice w id prev fd) "amount"
           = Some ["Expected number, received nan"])
  /\ (forall name, FormData.get "amount" fd = VFile name -> Number.isNaN a = true).
Proof.
  intros a. split; [|split].
  - rewrite offending_cases. pose proof (check_amount_spec fd) as Hs.
    cbv zeta in Hs. fold a in Hs. split.
    + intros Hno. destruct (Number.isNaN a) eqn:Hn.
      * exfalso. apply Hno. right; left. eauto.
      * destruct (Number.leb a Number.zero) eqn:Hl.
        -- exfalso. apply Hno. right; left. eauto.
        -- destruct (not_NaN_sign a Hn); congruence.
    + intros Hlt [[H _]|[[_ [i H]]|[H _]]]; try discriminate.
      destruct (ltb_zero_not_leb a Hlt) as [Hn Hl].
      rewrite Hn, Hl in Hs. congruence.
  - intros Hn. pose proof (check_amount_spec fd) as Hs.
    cbv zeta in Hs. fold a in Hs. rewrite Hn in Hs.
    destruct (amount_errors_of_issue fd _ _ Hs) as (error & He & Hm).
    rewrite create_update_same_errors, field_errors_create, He. auto.
  - intros name H. unfold a. now rewrite H.
Qed.

Lemma amount_accepted_iff_positive_witness :
  ~ offending (Sample.invoice "0.01" "paid") "amount"
  /\ field_errors
       (createInvoice Sample.store_accepts Sample.blank
          (Sample.invoice "twelve" "paid")) "amount"
     = Some ["Expected number, received nan"].
Proof.
  split.
  - apply (proj2 (proj1 (amount_accepted_iff_positive
                    Sample.store_accepts "inv-1" Sample.blank
                    (Sample.invoice "0.01" "paid")))).
    vm_compute. reflexivity.
  - apply (proj1 (proj2 (amount_accepted_iff_positive
                    Sample.store_accepts "inv-1" Sample.blank
                    (Sample.invoice "twelve" "paid")))).
    vm_compute. reflexivity.
Defined.

(** X4. Every string is accepted as customerId, the empty one included; a
    customerId that is not a string (absent, or a file) is reported with
    [Please select a customer.] by both actions. *)
Theorem customerId_must_be_a_string w id prev fd :
  (forall c, FormData.get "customerId" fd = VString c -> ~ offending fd "customerId")
  /\ ((forall c, FormData.get "customerId" fd <> VString c) ->
        offending fd "customerId"
        /\ field_errors (createInvoice w prev fd) "customerId"
           = Some ["Please select a customer."]
        /\ field_errors (updateInvoice w id prev fd) "customerId"
           = Some ["Please select a customer."])
  /\ (FormData.has "customerId" fd = false ->
        forall c, FormData.get "customerId" fd <> VString c).
Proof.
  split; [|split].
  - intros c Hc. rewrite offending_cases, check_customerId_spec, Hc.
    intros [[_ [i H]]|[[H _]|[H _]]]; discriminate.
  - intros Hno.
    assert (Hbad : check_customerId fd
                   = Zod.INVALID [Zod.issue Zod.invalid_type "customerId"
                                    "Please select a customer."]).
    { rewrite check_customerId_spec.
      destruct (FormData.get "customerId" fd) as [| |c| |]; try reflexivity.
      now destruct (Hno c). }
    assert (Hoff : offending fd "customerId")
      by (apply offending_cases; eauto).
    split; [exact Hoff|].
    destruct (validate_failure_of_offending fd _ Hoff) as [error He].
    rewrite create_update_same_errors, field_errors_create, He.
    rewrite (errors_follow_fields fd error "customerId" He),
      field_result_customerId, Hbad. auto.
  - intros Habsent c. apply get_null_iff in Habsent. congruence.
Qed.

Lemma customerId_must_be_a_string_witness :
  ~ offending [("customerId", FormData.EntryString "")] "customerId"
  /\ field_errors
       (createInvoice Sample.store_accepts Sample.blank
          [("amount", FormData.EntryString "12")]) "customerId"
     = Some ["Please select a customer."].
Proof.
  split.
  - apply (proj1 (customerId_must_be_a_string
                    Sample.store_accepts "inv-1" Sample.blank
                    [("customerId", FormData.EntryString "")]) "").
    reflexivity.
  - apply (proj1 (proj2 (customerId_must_be_a_string
                    Sample.store_accepts "inv-1" Sample.blank
                    [("amount", FormData.EntryString "12")]))).
    intros c. vm_compute. discriminate.
Defined.

(** X6. What the store raised never shows: two worlds with the same clock
    whose stores refuse the same statements, for whatever reasons, give
    the same runs of [createInvoice], [updateInvoice] and
    [deleteInvoice]. *)
Theorem store_error_is_not_exposed w w' id prev fd :
  now w = now w' ->
  (forall q, sql_raises w q = None <-> sql_raises w' q = None) ->
  createInvoice w prev fd = createInvoice w' prev fd
  /\ updateInvoice w id prev fd = updateInvoice w' id prev fd
  /\ deleteInvoice w id = deleteInvoice w' id.
Proof.
  intros Hnow Hsame.
  assert (Hw : forall q m, write_then_leave w q m = write_then_leave w' q m).
  { intros q m. unfold write_then_leave. specialize (Hsame q).
    destruct (sql_raises w q), (sql_raises w' q); try reflexivity.
    - discriminate (proj2 Hsame eq_refl).
    - discriminate (proj1 Hsame eq_refl). }
  split; [|split].
  - rewrite !createInvoice_run. destruct (validate fd); [|reflexivity].
    unfold insert_statement. rewrite Hnow. apply Hw.
  - rewrite !updateInvoice_run. destruct (validate fd); [|reflexivity]. apply Hw.
  - rewrite !deleteInvoice_run. cbv zeta.
    specialize (Hsame (DELETE_FROM_invoices (VString id))).
    destruct (sql_raises w _), (sql_raises w' _); try reflexivity.
    + discriminate (proj2 Hsame eq_refl).
    + discriminate (proj1 Hsame eq_refl).
Qed.

Lemma store_error_is_not_exposed_witness :
  deleteInvoice Sample.store_rejects "inv-1"
  = deleteInvoice
      {| sql_raises := fun _ => Some (OtherError "connection refused");
         signIn_raises := signIn_raises Sample.store_rejects;
         now := Sample.at_2023_11_14 |} "inv-1".
Proof.
  apply (proj2 (proj2 (store_error_is_not_exposed
                  Sample.store_rejects
                  {| sql_raises := fun _ => Some (OtherError "connection refused");
                     signIn_raises := signIn_raises Sample.store_rejects;
                     now := Sample.at_2023_11_14 |}
                  "inv-1" Sample.blank (Sample.invoice "12" "paid")
                  ltac:(reflexivity)
                  ltac:(intros q; split; discriminate)))).
Defined.


(** X8. Every run of [createInvoice] and of [updateInvoice] ends in one of
    three ways: the validation state without any call, the database-error
    state after a refused statement, or the redirect after an accepted
    statement and the invalidation. In particular the promise is never
    fulfilled with [undefined] and never rejected with a store error. *)
Theorem invoice_forms_end_in_one_of_three_ways w id prev fd :
  ends_in_one_of_three_ways w (createInvoice w prev fd)
    "Missing Fields. Failed to Create Invoice."
    "Database Error: Failed to Create Invoice."
  /\ ends_in_one_of_three_ways w (updateInvoice w id prev fd)
       "Missing Fields. Failed to Update Invoice."
       "Database Error: Failed to Update Invoice.".
Proof.
  unfold ends_in_one_of_three_ways.
  rewrite createInvoice_run, updateInvoice_run.
  destruct (validate fd) as [data|error].
  - unfold write_then_leave. split.
    + destruct (sql_raises w (insert_statement w data)) as [e|] eqn:E; eauto 8.
    + destruct (sql_raises w (update_statement id data)) as [e|] eqn:E; eauto 8.
  - split; left; eexists; reflexivity.
Qed.

(** X9. [authenticate] makes one call, [signIn] with the provider
    [credentials] and the form as given. When [signIn] returns, it
    returns nothing; the redirect signal that [signIn] throws passes
    through; and a returned state has no field errors, carries one of the
    two fixed messages, and only arises from an [AuthError]. *)
Theorem authenticate_only_signs_in w prev fd :
  trace (authenticate w prev fd) = [CallSignIn "credentials" fd]
  /\ (signIn_raises w "credentials" fd = None ->
        settled (authenticate w prev fd) = Fulfilled None)
  /\ (forall url,
        signIn_raises w "credentials" fd = Some (RedirectError url) ->
        settled (authenticate w prev fd) = Rejected (RedirectError url))
  /\ (forall st,
        returned_state (authenticate w prev fd) = Some st ->
        errors st = None
        /\ (message st = Some "Invalid credentials."
            \/ message st = Some "Something went wrong.")
        /\ exists type, signIn_raises w "credentials" fd = Some (AuthError type)).
Proof.
  rewrite authenticate_run. split; [reflexivity|].
  split; [intros ->; reflexivity|]. split; [intros url ->; reflexivity|].
  intros st. unfold returned_state, settled. cbn [snd].
  destruct (signIn_raises w "credentials" fd) as [[type| |]|]; try discriminate.
  intros [= <-]. cbn [errors message].
  destruct (String.eqb type "CredentialsSignin"); eauto.
Qed.

Lemma authenticate_only_signs_in_witness :
  settled (authenticate Sample.store_accepts PrevUndefined Sample.credentials)
  = Rejected (RedirectError "/dashboard").
Proof.
  apply (proj1 (proj2 (proj2 (authenticate_only_signs_in
                  Sample.store_accepts PrevUndefined Sample.credentials)))).
  reflexivity.
Defined.

Lemma get_first name (fd extra : FormData.t) :
  FormData.has name fd = true ->
  FormData.get name (fd ++ extra)%list = FormData.get name fd.
Proof.
  induction fd as [|[k e] fd IH]; cbn [FormData.has FormData.get app];
    [discriminate|].
  destruct (String.eqb k name); [reflexivity|exact IH].
Qed.

Lemma updateInvoice_reads_three_fields w id prev prev' fd fd' :
  FormData.get "customerId" fd' = FormData.get "customerId" fd ->
  FormData.get "amount" fd' = FormData.get "amount" fd ->
  FormData.get "status" fd' = FormData.get "status" fd ->
  updateInvoice w id prev' fd' = updateInvoice w id prev fd.
Proof.
  intros Hc Ha Hs.
  assert (Hv : validate fd' = validate fd).
  { unfold validate, submitted. now rewrite Hc, Ha, Hs. }
  now rewrite !updateInvoice_run, Hv.
Qed.

(** X10. When a form has entries named customerId, amount and status, entries
    appended after them, of whatever names, change nothing: the first
    entry of a name is the one that is read. *)
Theorem first_entry_of_a_name_wins w id prev (fd extra : FormData.t) :
  FormData.has "customerId" fd = true ->
  FormData.has "amount" fd = true ->
  FormData.has "status" fd = true ->
  createInvoice w prev (fd ++ extra)%list = createInvoice w prev fd
  /\ updateInvoice w id prev (fd ++ extra)%list = updateInvoice w id prev fd.
Proof.
  intros Hc Ha Hs. split.
  - apply createInvoice_reads_three_fields; now apply get_first.
  - apply updateInvoice_reads_three_fields; now apply get_first.
Qed.

Lemma first_entry_of_a_name_wins_witness :
  createInvoice Sample.store_accepts Sample.blank
    (Sample.invoice "12" "paid" ++ Sample.invoice "99" "pending")%list
  = createInvoice Sample.store_accepts Sample.blank (Sample.invoice "12" "paid").
Proof.
  apply (proj1 (first_entry_of_a_name_wins
                  Sample.store_accepts "inv-1" Sample.blank
                  (Sample.invoice "12" "paid") (Sample.invoice "99" "pending")
                  ltac:(reflexivity) ltac:(reflexivity) ltac:(reflexivity))).
Defined.

Lemma deleteInvoice_invalidates w id : invalidates_after_write w (deleteInvoice w id).
Proof.
  unfold invalidates_after_write. rewrite deleteInvoice_run. cbv zeta.
  destruct (sql_raises w (DELETE_FROM_invoices (VString id))) as [e|] eqn:E;
    intros path; cbn [trace fst head In]; split.
  - intros [H|[]]; discriminate H.
  - intros [_ (q & [= <-] & Hq)]. congruence.
  - intros [H|[H|[]]]; [discriminate H|]. injection H as <-. eauto.
  - intros [-> _]. auto.
Qed.

Lemma write_then_leave_invalidates w q m :
  invalidates_after_write w (write_then_leave w q m).
Proof.
  unfold invalidates_after_write, write_then_leave.
  destruct (sql_raises w q) as [e|] eqn:E;
    intros path; cbn [trace fst head In]; split.
  - intros [H|[]]; discriminate H.
  - intros [_ (q' & [= <-] & Hq)]. congruence.
  - intros [H|[H|[H|[]]]]; try discriminate H. injection H as <-. eauto.
  - intros [-> _]. auto.
Qed.

Lemma validation_error_invalidates w error m :
  invalidates_after_write w (validation_error error m).
Proof.
  intros path. cbn [trace fst validation_error head In]. split; [intros []|].
  intros [_ (q & H & _)]. discriminate H.
Qed.

(** X11. In every run of [createInvoice], [updateInvoice] and [deleteInvoice],
    [revalidatePath] is called exactly when the run sent a statement that
    the store did not refuse, and then on the route
    [/dashboard/invoices]. *)
Theorem cache_invalidated_only_after_a_successful_write w id prev fd :
  invalidates_after_write w (createInvoice w prev fd)
  /\ invalidates_after_write w (updateInvoice w id prev fd)
  /\ invalidates_after_write w (deleteInvoice w id).
Proof.
  split; [|split].
  - rewrite createInvoice_run. destruct (validate fd).
    + apply write_then_leave_invalidates.
    + apply validation_error_invalidates.
  - rewrite updateInvoice_run. destruct (validate fd).
    + apply write_then_leave_invalidates.
    + apply validation_error_invalidates.
  - apply deleteInvoice_invalidates.
Qed.

Lemma cache_invalidated_only_after_a_successful_write_witness :
  ~ In (CallRevalidatePath "/dashboard/invoices")
       (trace (deleteInvoice Sample.store_rejects "inv-1")).
Proof.
  intros H.
  apply (proj2 (proj2 (cache_invalidated_only_after_a_successful_write
                  Sample.store_rejects "inv-1" Sample.blank
                  (Sample.invoice "12" "paid")))) in H.
  destruct H as [_ (q & _ & Hq)]. discriminate Hq.
Defined.

(** X12. An amount typed as a string of decimal digits that denotes [n], with
    [0 < n] and [100 * n < 2^53], on an otherwise valid form, is written
    as the number [100 * n] exactly, a whole number of cents, by both
    actions. *)
Theorem whole_amounts_are_stored_exactly w id prev fd digits c :
  FormData.get "amount" fd = VString digits ->
  JsString.all_decimal_digits digits = true ->
  0 < JsString.decimal_value 0 digits ->
  100 * JsString.decimal_value 0 digits < 2 ^ 53 ->
  FormData.get "customerId" fd = VString c ->
  FormData.get "status" fd = VString "pending"
  \/ FormData.get "status" fd = VString "paid" ->
  let cents := 100 * JsString.decimal_value 0 digits in
  written_amount (createInvoice w prev fd) = Some (VNumber (Number.of_Z cents))
  /\ written_amount (updateInvoice w id prev fd) = Some (VNumber (Number.of_Z cents))
  /\ Number.is_Z (Number.of_Z cents) cents = true.
Proof.
  intros Hget Hdig Hpos Hfit Hc Hs cents.
  assert (Hne : digits <> "") by (intros ->; cbn in Hpos; lia).
  assert (Ha : ToNumber (FormData.get "amount" fd)
               = Number.of_Z (JsString.decimal_value 0 digits)).
  { rewrite Hget. apply StringToNumber_digits; assumption. }
  destruct (JsString.decimal_value 0 digits) as [|n|n] eqn:En; try lia.
  assert (Hn : Zpos n < 2 ^ 53) by lia.
  assert (Hv : exists data, validate fd = Zod.Success data).
  { destruct Hs as [Hs|Hs]; eexists; apply validate_success_iff;
      exists c; eexists; repeat split; eauto;
      rewrite Ha; now apply of_Z_positive. }
  destruct Hv as [data Hv].
  rewrite (written_amount_create w prev fd data Hv),
    (written_amount_update w id prev fd data Hv), Ha.
  rewrite (mul_comm (Number.of_Z (Zpos n))).
  change (Number.of_Z 100) with (Number.of_Z (Zpos 100)).
  rewrite (mul_of_Z_exact 100 n) by (rewrite Pos2Z.inj_mul; exact Hfit).
  unfold cents. change (100 * Zpos n) with (Zpos (100 * n)).
  repeat split. apply of_Z_is_Z. rewrite Pos2Z.inj_mul. exact Hfit.
Qed.

Lemma whole_amounts_are_stored_exactly_witness :
  written_amount
    (createInvoice Sample.store_accepts Sample.blank (Sample.invoice "0120" "paid"))
  = Some (VNumber (Number.of_Z 12000)).
Proof.
  apply (proj1 (whole_amounts_are_stored_exactly
                  Sample.store_accepts "inv-1" Sample.blank
                  (Sample.invoice "0120" "paid") "0120" "cust-1"
                  ltac:(reflexivity) ltac:(reflexivity)
                  ltac:(vm_compute; reflexivity) ltac:(vm_compute; reflexivity)
                  ltac:(reflexivity) ltac:(right; reflexivity))).
Defined.

(** X13. The date of every row that [createInvoice] inserts is
    [YYYY-MM-DD] for the year, month and day of the month of the server
    clock: the month is between 1 and 12, the day between 1 and the
    length of that month, and the date read back as a day number is the
    clock's day, [now / 86400000]. *)
Theorem inserted_date_is_the_server_calendar_day w prev fd c a s d :
  In (CallSql (INSERT_INTO_invoices c a s d)) (trace (createInvoice w prev fd)) ->
  let y := Date.YearFromTime (now w) in
  let m := Date.MonthFromTime (now w) in
  let day := Date.DateFromTime (now w) in
  d = VString (Date.YearString y +:+ "-" +:+ Date.pad 2 (m + 1)
                 +:+ "-" +:+ Date.pad 2 day)
  /\ 1 <= m + 1 <= 12
  /\ 1 <= day <= Date.DaysInMonth (Date.LeapDays y) m
  /\ Date.DayOfDate y m day = now w / 86400000.
Proof.
  intros Hin. cbv zeta.
  destruct (calendar_round_trip (now w)) as (Hm & Hd & Hr). cbv zeta in *.
  split; [|split; [lia|split; [exact Hd|exact Hr]]].
  rewrite createInvoice_run in Hin.
  destruct (validate fd) as [data|error] eqn:Hv; [|destruct Hin].
  destruct (validate_success fd data Hv) as (c0 & s0 & _ & _ & _ & ->).
  rewrite insert_statement_fields in Hin. unfold write_then_leave in Hin.
  destruct (sql_raises w _); cbn [trace fst In] in Hin;
    repeat (destruct Hin as [Hin|Hin]); try discriminate Hin; try contradiction;
    injection Hin as _ _ _ <-; reflexivity.
Qed.

Lemma inserted_date_is_the_server_calendar_day_witness :
  Date.DayOfDate 2023 10 14 = 1700000000000 / 86400000
  /\ VString "2023-11-14"
     = VString (Date.YearString 2023 +:+ "-" +:+ Date.pad 2 11 +:+ "-"
                  +:+ Date.pad 2 14).
Proof.
  destruct (inserted_date_is_the_server_calendar_day
              Sample.store_accepts Sample.blank (Sample.invoice "12" "paid")
              (VString "cust-1") (VNumber (Number.of_Z 1200)) (VString "paid")
              (VString "2023-11-14")
              ltac:(vm_compute; left; reflexivity)) as (Hd & _ & _ & Hr).
  exact (conj Hr Hd).
Defined.

(** X14. Every statement that [updateInvoice] sends is the update of the
    invoice whose id it was given, with the customerId and status of the
    form and the amount times 100; it never inserts or deletes. *)
Theorem updateInvoice_only_updates_the_given_invoice w id prev fd q :
  In (CallSql q) (trace (updateInvoice w id prev fd)) ->
  q = UPDATE_invoices
        (FormData.get "customerId" fd)
        (VNumber (Number.mul (ToNumber (FormData.get "amount" fd)) (Number.of_Z 100)))
        (FormData.get "status" fd)
        (VString id).
Proof.
  rewrite updateInvoice_run.
  destruct (validate fd) as [data|error] eqn:Hv; [|intros []].
  destruct (validate_success fd data Hv) as (c0 & s0 & Hc & Hs & _ & ->).
  rewrite Hc, Hs. unfold write_then_leave, update_statement.
  destruct (sql_raises w _); cbn [trace fst In]; intros H;
    repeat (destruct H as [H|H]); try discriminate H; try contradiction;
    injection H as <-; reflexivity.
Qed.

Lemma updateInvoice_only_updates_the_given_invoice_witness :
  UPDATE_invoices (VString "cust-1") (VNumber (Number.of_Z 1200))
    (VString "paid") (VString "inv-1")
  = UPDATE_invoices
      (FormData.get "customerId" (Sample.invoice "12" "paid"))
      (VNumber (Number.mul (ToNumber (FormData.get "amount" (Sample.invoice "12" "paid")))
                  (Number.of_Z 100)))
      (FormData.get "status" (Sample.invoice "12" "paid"))
      (VString "inv-1").
Proof.
  apply (updateInvoice_only_updates_the_given_invoice
           Sample.store_accepts "inv-1" Sample.blank (Sample.invoice "12" "paid")).
  vm_compute. left. reflexivity.
Defined.
